(** * RTCv2Service: the HTTP signalling front door (pkg/service/rtcv2service.go)

    A shallow embedding of the two handlers of [RTCv2Service],
    [handlePost] (POST /rtc/v2) and [handleParticipantPatch]
    (PATCH /rtc/v2/{participant_id}), together with the part of
    [http.ResponseWriter] they rely on.

    The handlers are written in a small state monad with early return:
    the state holds the response writer and the log of calls made to the
    collaborators, so that "what was written" and "what was called, and in
    which order" are both observable. *)

From Stdlib Require Import String Ascii List ZArith Bool.
Import ListNotations.

#[local] Open Scope Z_scope.
#[local] Open Scope list_scope.
#[local] Open Scope string_scope.

(** ** Basic Go types *)

(** [[]byte] *)
Definition bytes : Type := string.

(** Go's [error] values, as far as this file builds and inspects them.
    [errors_New] is a value made by [errors.New] (also the errors handed
    back by collaborators), [fmt_Errorf_w pre e post] is
    [fmt.Errorf(pre + "%w" + post, e)], and [psrpc_Error] is an error that
    [errors.As] recognises as a [psrpc.Error]. A nil error is [None] of
    [option error]. *)
Definition psrpc_ErrorCode : Type := string.

Inductive error : Type :=
| errors_New (msg : string)
| fmt_Errorf_w (pre : string) (wrapped : error) (post : string)
| psrpc_Error (code : psrpc_ErrorCode) (msg : string).

(** [err.Error()] *)
Fixpoint Error (e : error) : string :=
  match e with
  | errors_New msg => msg
  | fmt_Errorf_w pre wrapped post => pre ++ Error wrapped ++ post
  | psrpc_Error _ msg => msg
  end.

(** [errors.As(err, &pe)] with [pe] a [psrpc.Error]: the first error of the
    wrap chain that is one, as its code and its message. *)
Fixpoint errors_As_psrpc (e : error) : option (psrpc_ErrorCode * string) :=
  match e with
  | errors_New _ => None
  | fmt_Errorf_w _ wrapped _ => errors_As_psrpc wrapped
  | psrpc_Error code msg => Some (code, msg)
  end.

(** [errors.Is(err, target)] for a target made by [errors.New]: [target]
    occurs in the wrap chain of [err]. *)
Fixpoint errors_Is (e target : error) : Prop :=
  e = target \/
  match e with
  | fmt_Errorf_w _ wrapped _ => errors_Is wrapped target
  | _ => False
  end.

Module psrpc.
(** The two codes of psrpc's [ErrorCode] the handler switches on. *)
Definition NotFound : psrpc_ErrorCode := "not_found".
Definition InvalidArgument : psrpc_ErrorCode := "invalid_argument".
End psrpc.

(** ** net/http *)

Module http.

Definition StatusOK : Z := 200.
Definition StatusBadRequest : Z := 400.
Definition StatusUnauthorized : Z := 401.
Definition StatusNotFound : Z := 404.
Definition StatusInternalServerError : Z := 500.

(** [textproto.CanonicalMIMEHeaderKey] on keys made of letters, digits
    and hyphens: the first letter and every letter after a hyphen in
    upper case, the others in lower case. *)
Definition isLower (c : ascii) : bool :=
  ((97 <=? nat_of_ascii c) && (nat_of_ascii c <=? 122))%nat.
Definition isUpper (c : ascii) : bool :=
  ((65 <=? nat_of_ascii c) && (nat_of_ascii c <=? 90))%nat.
Definition toUpper (c : ascii) : ascii :=
  if isLower c then ascii_of_nat (nat_of_ascii c - 32) else c.
Definition toLower (c : ascii) : ascii :=
  if isUpper c then ascii_of_nat (nat_of_ascii c + 32) else c.

Fixpoint canonical (upper : bool) (s : string) : string :=
  match s with
  | EmptyString => EmptyString
  | String c rest =>
      String (if upper then toUpper c else toLower c)
             (canonical (Ascii.eqb c "-"%char) rest)
  end.

Definition CanonicalMIMEHeaderKey (s : string) : string := canonical true s.

(** [http.Header]: canonical key to the values added under it. *)
Definition Header : Type := list (string * list string).

Fixpoint lookup (h : Header) (key : string) : option (list string) :=
  match h with
  | [] => None
  | (k, vs) :: rest => if String.eqb k key then Some vs else lookup rest key
  end.

(** [h.Get(key)]: the first value under the canonical key, or "". *)
Definition Header_Get (h : Header) (key : string) : string :=
  match lookup h (CanonicalMIMEHeaderKey key) with
  | Some (v :: _) => v
  | _ => ""
  end.

Fixpoint append (h : Header) (key value : string) : Header :=
  match h with
  | [] => [(key, [value])]
  | (k, vs) :: rest =>
      if String.eqb k key then (k, (vs ++ [value])%list) :: rest
      else (k, vs) :: append rest key value
  end.

(** [h.Add(key, value)] *)
Definition Header_Add (h : Header) (key value : string) : Header :=
  append h (CanonicalMIMEHeaderKey key) value.

End http.

(** The JSON error body of an error response. *)
Record ErrorResponse : Type := mkErrorResponse {
  code : Z;
  message : string;
}.

(** What a handler hands to [ResponseWriter.Write]: the JSON rendering of
    an error response, or raw bytes. *)
Inductive Chunk : Type :=
| Json (e : ErrorResponse)
| Raw (b : bytes).

(** [http.ResponseWriter], as net/http's server implements it: the first
    [WriteHeader] commits the status together with the header map as it
    is then; a later [WriteHeader] is superfluous, it is logged and
    ignored; a [Write] before any [WriteHeader] commits [StatusOK]. *)
Record ResponseWriter : Type := mkResponseWriter {
  handlerHeader : http.Header;
  committed : option (Z * http.Header);
  body : list Chunk;
  superfluous : list Z;
}.

Definition newResponseWriter : ResponseWriter :=
  {| handlerHeader := []; committed := None; body := []; superfluous := [] |}.

Definition status (w : ResponseWriter) : option Z :=
  option_map fst (committed w).

Definition WriteHeader (statusCode : Z) (w : ResponseWriter) : ResponseWriter :=
  match committed w with
  | Some _ =>
      {| handlerHeader := handlerHeader w; committed := committed w;
         body := body w; superfluous := superfluous w ++ [statusCode] |}
  | None =>
      {| handlerHeader := handlerHeader w;
         committed := Some (statusCode, handlerHeader w);
         body := body w; superfluous := superfluous w |}
  end.

Definition Write (c : Chunk) (w : ResponseWriter) : ResponseWriter :=
  let w' := match committed w with
            | Some _ => w
            | None => WriteHeader http.StatusOK w
            end in
  {| handlerHeader := handlerHeader w'; committed := committed w';
     body := body w' ++ [c]; superfluous := superfluous w' |}.

Definition Header_Add (key value : string) (w : ResponseWriter) : ResponseWriter :=
  {| handlerHeader := http.Header_Add (handlerHeader w) key value;
     committed := committed w; body := body w; superfluous := superfluous w |}.

(** ** Protocol messages (package livekit)

    The messages are generated from the protocol schema; they are modelled
    as the tagged unions and structs the handlers see. A oneof with no
    variant set is the [_nil] constructor. *)

Definition RoomName : Type := string.
Definition ParticipantIdentity : Type := string.
Definition ParticipantID : Type := string.
Definition Topic : Type := string.

(** The client-info block, field name to value. *)
Definition ClientInfo : Type := list (string * string).

Record ConnectRequest : Type := mkConnectRequest {
  Metadata : string;
  ParticipantAttributes : list (string * string);
  ClientInfo_ : option ClientInfo;
}.

Record ConnectResponse : Type := mkConnectResponse {
  Room_Sid : string;
  Participant_Sid : string;
  ConnectResponse_rest : bytes;
}.

(** [Signalv2ClientMessage.Message]: the handler interprets the
    [ConnectRequest] variant only; any other variant is kept by the name
    of its oneof wrapper and its content. *)
Inductive Signalv2ClientMessage : Type :=
| Signalv2ClientMessage_ConnectRequest (connectRequest : ConnectRequest)
| Signalv2ClientMessage_other (variant : string) (content : bytes)
| Signalv2ClientMessage_nil.

Inductive Signalv2ServerMessage : Type :=
| Signalv2ServerMessage_ConnectResponse (connectResponse : ConnectResponse)
| Signalv2ServerMessage_other (variant : string) (content : bytes).

Record Envelope : Type := mkEnvelope {
  ClientMessages : list Signalv2ClientMessage;
  ServerMessages : list Signalv2ServerMessage;
}.

Record Fragment : Type := mkFragment {
  Fragment_content : bytes;
}.

Inductive Signalv2WireMessage : Type :=
| Signalv2WireMessage_Envelope (envelope : Envelope)
| Signalv2WireMessage_Fragment (fragment : Fragment)
| Signalv2WireMessage_nil.

(** What [fmt]'s [%T] prints for the dynamic type of a client message. *)
Definition typeName (m : Signalv2ClientMessage) : string :=
  match m with
  | Signalv2ClientMessage_ConnectRequest _ =>
      "*livekit.Signalv2ClientMessage_ConnectRequest"
  | Signalv2ClientMessage_other variant _ =>
      "*livekit.Signalv2ClientMessage_" ++ variant
  | Signalv2ClientMessage_nil => "<nil>"
  end.

(** ** Grants, requests and RPC payloads *)

(** [auth.VideoGrant]: the handlers test its presence only. *)
Definition VideoGrant : Type := bytes.

Record ClaimGrants : Type := mkClaimGrants {
  Identity : string;
  Video : option VideoGrant;
}.

Definition CreateRoomRequest : Type := bytes.
Definition LimitConfig : Type := bytes.

(** [context.Context] of a request: opaque here, the collaborators read it. *)
Definition Context : Type := nat.

(** [*http.Request], as far as the handlers look at it. [Body] is what
    [ioutil.ReadAll(r.Body)] returns. *)
Record Request : Type := mkRequest {
  Header : http.Header;
  Body : bytes + error;
  Context_ : Context;
  PathValues : list (string * string);
}.

Fixpoint assoc (kvs : list (string * string)) (key : string) : string :=
  match kvs with
  | [] => ""
  | (k, v) :: rest => if String.eqb k key then v else assoc rest key
  end.

(** [r.PathValue(name)] *)
Definition PathValue (r : Request) (name : string) : string :=
  assoc (PathValues r) name.

Record ValidateConnectRequestParams : Type := mkParams {
  metadata : string;
  attributes : list (string * string);
}.

Record ValidateConnectRequestResult : Type := mkResult {
  roomName : RoomName;
  grants : ClaimGrants;
  createRoomRequest : option CreateRoomRequest;
}.

Module rpc.

Record RelaySignalv2ConnectRequest : Type := mkRelaySignalv2ConnectRequest {
  GrantsJson : string;
  CreateRoom : option CreateRoomRequest;
  ConnectRequest_ : ConnectRequest;
}.

Record RelaySignalv2ConnectResponse : Type := mkRelaySignalv2ConnectResponse {
  ConnectResponse_ : ConnectResponse;
}.

Record RelaySignalv2ParticipantRequest : Type := mkRelaySignalv2ParticipantRequest {
  Room : string;
  ParticipantIdentity_ : string;
  ParticipantId : string;
  WireMessage : Signalv2WireMessage;
}.

Record RelaySignalv2ParticipantResponse : Type := mkRelaySignalv2ParticipantResponse {
  WireMessage_ : Signalv2WireMessage;
}.

End rpc.

(** ** The collaborators

    The interfaces injected into [RTCv2Service] at construction, as records
    of functions. *)

Record RoomAllocator : Type := mkRoomAllocator {
  SelectRoomNode : Context -> RoomName -> string -> option error;
}.

Record MessageRouter : Type := mkMessageRouter {
  HandleParticipantConnectRequest :
    Context -> RoomName -> ParticipantIdentity ->
    option rpc.RelaySignalv2ConnectRequest ->
    rpc.RelaySignalv2ConnectResponse + error;
}.

Record TopicFormatter : Type := mkTopicFormatter {
  ParticipantTopic : Context -> RoomName -> ParticipantIdentity -> Topic;
}.

Record TypedSignalv2ParticipantClient : Type := mkTypedSignalv2ParticipantClient {
  RelaySignalv2Participant :
    Context -> Topic -> rpc.RelaySignalv2ParticipantRequest ->
    rpc.RelaySignalv2ParticipantResponse + error;
}.

Record RTCv2Service : Type := mkRTCv2Service {
  limits : LimitConfig;
  roomAllocator : RoomAllocator;
  router : MessageRouter;
  topicFormatter : TopicFormatter;
  signalv2ParticipantClient : TypedSignalv2ParticipantClient;
}.

(** What the handlers use from outside this file and outside the service
    struct: the protobuf and JSON codecs, the functions of package service
    declared in its other files, and the error values declared there and
    in package rtc. They are parameters of the model. *)
Record Imports : Type := mkImports {
  proto_Unmarshal : bytes -> Signalv2WireMessage + error;
  proto_Marshal : Signalv2WireMessage -> bytes + error;
  json_Marshal : ClaimGrants -> bytes + error;
  ValidateConnectRequest :
    Request -> LimitConfig -> ValidateConnectRequestParams ->
    MessageRouter -> RoomAllocator ->
    ValidateConnectRequestResult * Z * option error;
  AugmentClientInfo : option ClientInfo -> Request -> option ClientInfo;
  GetGrants : Context -> option ClaimGrants;
  EnsureJoinPermission : Context -> RoomName * option error;
  rtc_ErrPermissionDenied : error;
  ErrNoRoomName : error;
  ErrIdentityEmpty : error;
  ErrParticipantSidEmpty : error;
}.

Definition errFragmentsInHTTP : error :=
  errors_New "should not get fragments via HTTP request".
Definition errUnknownMessageType : error :=
  errors_New "unknown message type".

(** ** The handler monad *)

(** A call that leaves the process, or reads the request body. *)
Inductive Call : Type :=
| Call_ReadAll
| Call_Unmarshal (b : bytes)
| Call_ValidateConnectRequest (params : ValidateConnectRequestParams)
| Call_json_Marshal (g : ClaimGrants)
| Call_SelectRoomNode (room : RoomName) (nodeID : string)
| Call_HandleParticipantConnectRequest
    (room : RoomName) (identity : ParticipantIdentity)
    (req : option rpc.RelaySignalv2ConnectRequest)
| Call_Marshal (m : Signalv2WireMessage)
| Call_GetGrants
| Call_EnsureJoinPermission
| Call_RelaySignalv2Participant
    (topic : Topic) (req : rpc.RelaySignalv2ParticipantRequest).

Record World : Type := mkWorld {
  w : ResponseWriter;
  calls : list Call;
}.

Definition initial : World := {| w := newResponseWriter; calls := [] |}.

(** A handler step: the new state, and [Some a] when the step yields [a],
    [None] when the handler has executed [return]. *)
Definition Handler (A : Type) : Type := World -> World * option A.

Definition ret {A : Type} (a : A) : Handler A := fun st => (st, Some a).

Definition bind {A B : Type} (m : Handler A) (k : A -> Handler B) : Handler B :=
  fun st =>
    match m st with
    | (st', Some a) => k a st'
    | (st', None) => (st', None)
    end.

Definition return_ {A : Type} : Handler A := fun st => (st, None).

Declare Scope handler_scope.
Delimit Scope handler_scope with handler.
Notation "x <- m ;; k" := (bind m (fun x => k))
  (at level 61, m at next level, right associativity) : handler_scope.
Notation "' pat <- m ;; k" := (bind m (fun x => match x with pat => k end))
  (at level 61, pat pattern, m at next level, right associativity) : handler_scope.
Notation "m ;; k" := (bind m (fun _ => k))
  (at level 61, right associativity) : handler_scope.

Definition call {A : Type} (c : Call) (result : A) : Handler A :=
  fun st => ({| w := w st; calls := calls st ++ [c] |}, Some result).

Definition onWriter (f : ResponseWriter -> ResponseWriter) : Handler unit :=
  fun st => ({| w := f (w st); calls := calls st |}, Some tt).

(** [for _, x := range xs { body }] *)
Fixpoint forRange {A : Type} (xs : list A) (body : A -> Handler unit) : Handler unit :=
  match xs with
  | [] => ret tt
  | x :: rest => bind (body x) (fun _ => forRange rest body)
  end.

(** The state in which a handler leaves the request. *)
Definition run (h : Handler unit) (st : World) : World := fst (h st).

(** Modelled from the spec: the text that [HandleErrorJson], declared in
    another file of package service, puts in the place of a nil error's
    message, "a generic internal-error message". *)
Definition genericInternalError : string := "internal error".

(** Modelled from the spec: the message text of the JSON error body that
    [HandleErrorJson] writes, the error's own text, or the generic one for
    a nil error. *)
Definition errorText (err : option error) : string :=
  match err with
  | Some e => Error e
  | None => genericInternalError
  end.

(** Modelled from the spec: what [HandleErrorJson], declared in another
    file of package service, does to the response writer. It commits the
    given status and writes one JSON error body that carries the status
    and the message text. *)
Definition writeErrorJson (statusCode : Z) (err : option error)
    (rw : ResponseWriter) : ResponseWriter :=
  Write (Json {| code := statusCode; message := errorText err |})
        (WriteHeader statusCode rw).

(** Modelled from the spec: [HandleErrorJson(w, r, status, err)] as a
    handler step. *)
Definition HandleErrorJson (statusCode : Z) (err : option error) : Handler unit :=
  onWriter (writeErrorJson statusCode err).

(** ** The handlers *)

Section Handlers.

Variable imp : Imports.
Variable s : RTCv2Service.

#[local] Open Scope handler_scope.

Definition cContentType : string := "application/x-protobuf".

(** [if err != nil { HandleErrorJson(w, r, status, err); return }] after a
    call that yields a value or an error. *)
Definition orFail {A : Type} (statusCode : Z) (wrap : error -> error)
    (res : A + error) : Handler A :=
  match res with
  | inl a => ret a
  | inr e => HandleErrorJson statusCode (Some (wrap e)) ;; return_
  end.

(** The content-type gate both handlers start with. *)
Definition requireContentType (r : Request) : Handler unit :=
  if negb (String.eqb (http.Header_Get (Header r) "Content-type") cContentType)
  then
    HandleErrorJson http.StatusBadRequest
      (Some (errors_New ("unsupported content-type: "
                         ++ http.Header_Get (Header r) "Content-type"))) ;;
    return_
  else ret tt.

(** [ioutil.ReadAll(r.Body)] followed by [proto.Unmarshal], each with its
    error exit. *)
Definition readWireMessage (r : Request) : Handler Signalv2WireMessage :=
  read <- call Call_ReadAll (Body r) ;;
  body <- orFail http.StatusBadRequest
            (fun e => fmt_Errorf_w "could not read request body: " e "") read ;;
  decoded <- call (Call_Unmarshal body) (proto_Unmarshal imp body) ;;
  orFail http.StatusBadRequest
    (fun e => fmt_Errorf_w "could not unmarshal request: " e "") decoded.

(** The connect request after [AugmentClientInfo(connectRequest.ClientInfo, r)],
    which updates the client-info block in place. *)
Definition augmented (r : Request) (connectRequest : ConnectRequest)
  : ConnectRequest :=
  {| Metadata := Metadata connectRequest;
     ParticipantAttributes := ParticipantAttributes connectRequest;
     ClientInfo_ := AugmentClientInfo imp (ClientInfo_ connectRequest) r |}.

Definition validateInternal (r : Request) (connectRequest : ConnectRequest)
  : Handler (RoomName * ParticipantIdentity
             * option rpc.RelaySignalv2ConnectRequest * Z * option error) :=
  let params := {| metadata := Metadata connectRequest;
                   attributes := ParticipantAttributes connectRequest |} in
  '(res, code, err) <-
    call (Call_ValidateConnectRequest params)
         (ValidateConnectRequest imp r (limits s) params
            (router s) (roomAllocator s)) ;;
  match err with
  | Some e => ret ("", "", None, code, Some e)
  | None =>
      marshalled <- call (Call_json_Marshal (grants res))
                         (json_Marshal imp (grants res)) ;;
      match marshalled with
      | inr e => ret ("", "", None, http.StatusInternalServerError, Some e)
      | inl grantsJson =>
          (* the relay request points to the connect request that
             AugmentClientInfo has just updated *)
          let connectRequest' := augmented r connectRequest in
          ret (roomName res,
               Identity (grants res),
               Some {| rpc.GrantsJson := grantsJson;
                       rpc.CreateRoom := createRoomRequest res;
                       rpc.ConnectRequest_ := connectRequest' |},
               code,
               None)
      end
  end.

(** The body of the loop over the client messages of an envelope. *)
Definition handleClientMessage (r : Request) (innerMsg : Signalv2ClientMessage)
  : Handler unit :=
  match innerMsg with
  | Signalv2ClientMessage_ConnectRequest connectRequest =>
      '(roomName, participantIdentity, rscr, code, err) <-
        validateInternal r connectRequest ;;
      match err with
      | Some e => HandleErrorJson code (Some e) ;; return_
      | None =>
          selected <- call (Call_SelectRoomNode roomName "")
                           (SelectRoomNode (roomAllocator s) (Context_ r) roomName "") ;;
          match selected with
          | Some e =>
              HandleErrorJson http.StatusInternalServerError (Some e) ;; return_
          | None =>
              routed <- call (Call_HandleParticipantConnectRequest
                                roomName participantIdentity rscr)
                             (HandleParticipantConnectRequest (router s)
                                (Context_ r) roomName participantIdentity rscr) ;;
              resp <- orFail http.StatusInternalServerError (fun e => e) routed ;;
              let wireMessage :=
                Signalv2WireMessage_Envelope
                  {| ClientMessages := [];
                     ServerMessages :=
                       [Signalv2ServerMessage_ConnectResponse
                          (rpc.ConnectResponse_ resp)] |} in
              encoded <- call (Call_Marshal wireMessage)
                              (proto_Marshal imp wireMessage) ;;
              marshalled <- orFail http.StatusInternalServerError (fun e => e) encoded ;;
              onWriter (Header_Add "Content-type" "application/x-protobuf") ;;
              onWriter (Write (Raw marshalled))
          end
      end
  | clientMessage =>
      HandleErrorJson http.StatusBadRequest
        (Some (fmt_Errorf_w "" errUnknownMessageType
                 (", message: " ++ typeName clientMessage)))
  end.

Definition handlePost (r : Request) : Handler unit :=
  requireContentType r ;;
  wireMessage <- readWireMessage r ;;
  match wireMessage with
  | Signalv2WireMessage_Envelope envelope =>
      forRange (ClientMessages envelope) (handleClientMessage r)
  | Signalv2WireMessage_Fragment _ =>
      HandleErrorJson http.StatusBadRequest (Some errFragmentsInHTTP) ;;
      return_
  | Signalv2WireMessage_nil => ret tt
  end ;;
  onWriter (WriteHeader http.StatusOK).

(** The translation of a failed relay RPC into a status and an error. *)
Definition relayError (err : error) : Z * option error :=
  match errors_As_psrpc err with
  | Some (code, msg) =>
      if String.eqb code psrpc.NotFound then
        (http.StatusNotFound, Some (errors_New msg))
      else if String.eqb code psrpc.InvalidArgument then
        (http.StatusBadRequest, Some (errors_New msg))
      else
        (http.StatusInternalServerError, Some (errors_New msg))
  | None => (http.StatusInternalServerError, None)
  end.

Definition handleParticipantPatch (r : Request) : Handler unit :=
  requireContentType r ;;
  claims <- call Call_GetGrants (GetGrants imp (Context_ r)) ;;
  claims <- match claims with
            | Some c =>
                match Video c with
                | Some _ => ret c
                | None =>
                    HandleErrorJson http.StatusUnauthorized
                      (Some (rtc_ErrPermissionDenied imp)) ;;
                    return_
                end
            | None =>
                HandleErrorJson http.StatusUnauthorized
                  (Some (rtc_ErrPermissionDenied imp)) ;;
                return_
            end ;;
  '(roomName, err) <- call Call_EnsureJoinPermission
                           (EnsureJoinPermission imp (Context_ r)) ;;
  match err with
  | Some e => HandleErrorJson http.StatusUnauthorized (Some e) ;; return_
  | None => ret tt
  end ;;
  (if String.eqb roomName "" then
     HandleErrorJson http.StatusUnauthorized (Some (ErrNoRoomName imp)) ;;
     return_
   else ret tt) ;;
  let participantIdentity : ParticipantIdentity := Identity claims in
  (if String.eqb participantIdentity "" then
     HandleErrorJson http.StatusUnauthorized (Some (ErrIdentityEmpty imp)) ;;
     return_
   else ret tt) ;;
  let pID : ParticipantID := PathValue r "participant_id" in
  (if String.eqb pID "" then
     HandleErrorJson http.StatusBadRequest (Some (ErrParticipantSidEmpty imp)) ;;
     return_
   else ret tt) ;;
  wireMessage <- readWireMessage r ;;
  let topic := ParticipantTopic (topicFormatter s) (Context_ r)
                 roomName participantIdentity in
  let req := {| rpc.Room := roomName;
                rpc.ParticipantIdentity_ := participantIdentity;
                rpc.ParticipantId := pID;
                rpc.WireMessage := wireMessage |} in
  relayed <- call (Call_RelaySignalv2Participant topic req)
                  (RelaySignalv2Participant (signalv2ParticipantClient s)
                     (Context_ r) topic req) ;;
  match relayed with
  | inr err =>
      let '(statusCode, reported) := relayError err in
      HandleErrorJson statusCode reported ;;
      return_
  | inl res =>
      encoded <- call (Call_Marshal (rpc.WireMessage_ res))
                      (proto_Marshal imp (rpc.WireMessage_ res)) ;;
      marshalled <- orFail http.StatusInternalServerError (fun e => e) encoded ;;
      onWriter (Header_Add "Content-type" "application/x-protobuf") ;;
      onWriter (Write (Raw marshalled)) ;;
      onWriter (WriteHeader http.StatusOK)
  end.

End Handlers.

(** [config.Config], as far as the constructor reads it. *)
Record Config : Type := mkConfig {
  Limit : LimitConfig;
}.

Definition NewRTCv2Service (config : Config) (roomAllocator : RoomAllocator)
    (router : MessageRouter) (topicFormatter : TopicFormatter)
    (signalv2ParticipantClient : TypedSignalv2ParticipantClient) : RTCv2Service :=
  {| limits := Limit config;
     router := router;
     roomAllocator := roomAllocator;
     topicFormatter := topicFormatter;
     signalv2ParticipantClient := signalv2ParticipantClient |}.

(** ** Test doubles

    Concrete collaborators, for running the handlers on concrete requests. *)

Module Doubles.

Definition protobufHeader : http.Header :=
  [("Content-Type", ["application/x-protobuf"])].

Definition connectRequest : ConnectRequest :=
  {| Metadata := "meta"; ParticipantAttributes := [("k", "v")];
     ClientInfo_ := Some [("sdk", "go")] |}.

Definition connectResponse : ConnectResponse :=
  {| Room_Sid := "RM_alpha"; Participant_Sid := "PA_p1";
     ConnectResponse_rest := "" |}.

Definition aliceGrants : ClaimGrants :=
  {| Identity := "alice"; Video := Some "roomJoin" |}.

(** A codec double: every body decodes to [decoded], and a message
    encodes to a tag for its variant. *)
Definition encoded (m : Signalv2WireMessage) : bytes :=
  match m with
  | Signalv2WireMessage_Envelope _ => "<envelope>"
  | Signalv2WireMessage_Fragment fragment =>
      "<fragment:" ++ Fragment_content fragment ++ ">"
  | Signalv2WireMessage_nil => ""
  end.

Definition imports (decoded : Signalv2WireMessage)
    (claims : option ClaimGrants) (join : RoomName * option error)
    (grantsJson : bytes + error) : Imports :=
  {| proto_Unmarshal := fun _ => inl decoded;
     proto_Marshal := fun m => inl (encoded m);
     json_Marshal := fun _ => grantsJson;
     ValidateConnectRequest := fun _ _ _ _ _ =>
       ({| roomName := "alpha"; grants := aliceGrants;
           createRoomRequest := None |}, http.StatusOK, None);
     AugmentClientInfo := fun ci _ =>
       option_map (fun fields => (fields ++ [("address", "10.0.0.1")])%list) ci;
     GetGrants := fun _ => claims;
     EnsureJoinPermission := fun _ => join;
     rtc_ErrPermissionDenied := errors_New "permissions denied";
     ErrNoRoomName := errors_New "no room name";
     ErrIdentityEmpty := errors_New "identity cannot be empty";
     ErrParticipantSidEmpty := errors_New "participant sid cannot be empty" |}.

Definition service (placement : option error)
    (routed : rpc.RelaySignalv2ConnectResponse + error)
    (relayed : rpc.RelaySignalv2ParticipantResponse + error) : RTCv2Service :=
  {| limits := "";
     roomAllocator := {| SelectRoomNode := fun _ _ _ => placement |};
     router := {| HandleParticipantConnectRequest := fun _ _ _ _ => routed |};
     topicFormatter :=
       {| ParticipantTopic := fun _ room identity => room ++ "|" ++ identity |};
     signalv2ParticipantClient :=
       {| RelaySignalv2Participant := fun _ _ _ => relayed |} |}.

Definition healthy : RTCv2Service :=
  service None
    (inl {| rpc.ConnectResponse_ := connectResponse |})
    (inl {| rpc.WireMessage_ := Signalv2WireMessage_nil |}).

Definition request (h : http.Header) (pID : string) : Request :=
  {| Header := h; Body := inl "body"; Context_ := 0%nat;
     PathValues := [("participant_id", pID)] |}.

Definition post : Request := request protobufHeader "".

Definition envelope (msgs : list Signalv2ClientMessage) : Signalv2WireMessage :=
  Signalv2WireMessage_Envelope {| ClientMessages := msgs; ServerMessages := [] |}.

Definition ping : Signalv2ClientMessage :=
  Signalv2ClientMessage_other "Ping" "".

(** An authorized PATCH for participant "p1" of room "alpha". *)
Definition patch : Request := request protobufHeader "p1".

Definition authorized (decoded : Signalv2WireMessage) : Imports :=
  imports decoded (Some aliceGrants) ("alpha", None) (inl "{}").

Definition relaying (relayed : rpc.RelaySignalv2ParticipantResponse + error)
  : RTCv2Service :=
  service None (inl {| rpc.ConnectResponse_ := connectResponse |}) relayed.

End Doubles.

(** ** More test doubles: collaborators that fail, and ones that tell
    their inputs apart *)

Module Faults.

(** Every outcome of the codec and of the validator is given; the caller
    is authorized for room "alpha" as "alice". *)
Definition imports (decoded : Signalv2WireMessage + error) (encoded : bytes + error)
    (validated : ValidateConnectRequestResult * Z * option error) : Imports :=
  {| proto_Unmarshal := fun _ => decoded;
     proto_Marshal := fun _ => encoded;
     json_Marshal := fun _ => inl "{}";
     ValidateConnectRequest := fun _ _ _ _ _ => validated;
     AugmentClientInfo := fun ci _ => ci;
     GetGrants := fun _ => Some Doubles.aliceGrants;
     EnsureJoinPermission := fun _ => ("alpha", None);
     rtc_ErrPermissionDenied := errors_New "permissions denied";
     ErrNoRoomName := errors_New "no room name";
     ErrIdentityEmpty := errors_New "identity cannot be empty";
     ErrParticipantSidEmpty := errors_New "participant sid cannot be empty" |}.

Definition alpha : ValidateConnectRequestResult :=
  {| roomName := "alpha"; grants := Doubles.aliceGrants; createRoomRequest := None |}.

(** A request whose body cannot be read. *)
Definition unreadable : Request :=
  {| Header := Doubles.protobufHeader;
     Body := inr (errors_New "unexpected EOF");
     Context_ := 0%nat;
     PathValues := [("participant_id", "p1")] |}.

(** Collaborators that tell connect requests apart: the validator takes
    the room name from the metadata, the router answers with a room id
    made from the room name, and the codec encodes a connect response as
    that room id. *)
Definition byRoom (decoded : Signalv2WireMessage) : Imports :=
  {| proto_Unmarshal := fun _ => inl decoded;
     proto_Marshal := fun m =>
       match m with
       | Signalv2WireMessage_Envelope
           {| ServerMessages := Signalv2ServerMessage_ConnectResponse resp :: _ |} =>
           inl (Room_Sid resp)
       | _ => inl ""
       end;
     json_Marshal := fun g => inl ("{" ++ Identity g ++ "}");
     ValidateConnectRequest := fun _ _ params _ _ =>
       ({| roomName := metadata params; grants := Doubles.aliceGrants;
           createRoomRequest := None |}, http.StatusOK, None);
     AugmentClientInfo := fun ci _ => ci;
     GetGrants := fun _ => None;
     EnsureJoinPermission := fun _ => ("", None);
     rtc_ErrPermissionDenied := errors_New "permissions denied";
     ErrNoRoomName := errors_New "no room name";
     ErrIdentityEmpty := errors_New "identity cannot be empty";
     ErrParticipantSidEmpty := errors_New "participant sid cannot be empty" |}.

Definition roomService : RTCv2Service :=
  NewRTCv2Service {| Limit := "" |}
    {| SelectRoomNode := fun _ _ _ => None |}
    {| HandleParticipantConnectRequest := fun _ room _ _ =>
         inl {| rpc.ConnectResponse_ :=
                  {| Room_Sid := "RM_" ++ room; Participant_Sid := "PA_1";
                     ConnectResponse_rest := "" |} |} |}
    {| ParticipantTopic := fun _ room identity => room ++ "|" ++ identity |}
    {| RelaySignalv2Participant := fun _ _ _ =>
         inl {| rpc.WireMessage_ := Signalv2WireMessage_nil |} |}.

Definition connectTo (room : RoomName) : ConnectRequest :=
  {| Metadata := room; ParticipantAttributes := []; ClientInfo_ := None |}.

End Faults.

(** ** Vocabulary of the statements *)

(** The response is one JSON error body with the given text under status
    [statusCode], and no later status was attempted. *)
Definition failsWith (statusCode : Z) (text : string) (rw : ResponseWriter) : Prop :=
  status rw = Some statusCode
  /\ body rw = [Json {| code := statusCode; message := text |}]
  /\ superfluous rw = [].


(** A PATCH request that passes the content-type gate and every
    authorization check, and whose body decodes to [m]. *)
Record PatchAccepted (imp : Imports) (r : Request) (claims : ClaimGrants)
    (room : RoomName) (b : bytes) (m : Signalv2WireMessage) : Prop :=
  mkPatchAccepted {
    accepted_content_type :
      http.Header_Get (Header r) "Content-type" = "application/x-protobuf";
    accepted_grants : GetGrants imp (Context_ r) = Some claims;
    accepted_video : Video claims <> None;
    accepted_join : EnsureJoinPermission imp (Context_ r) = (room, None);
    accepted_room : room <> "";
    accepted_identity : Identity claims <> "";
    accepted_participant : PathValue r "participant_id" <> "";
    accepted_body : Body r = inl b;
    accepted_decoded : proto_Unmarshal imp b = inl m;
  }.

(** The relay request the spec describes for such a request: room,
    identity, participant id and the decoded wire message as it is. *)
Definition relayedRequest (r : Request) (claims : ClaimGrants) (room : RoomName)
    (m : Signalv2WireMessage) : rpc.RelaySignalv2ParticipantRequest :=
  {| rpc.Room := room;
     rpc.ParticipantIdentity_ := Identity claims;
     rpc.ParticipantId := PathValue r "participant_id";
     rpc.WireMessage := m |}.

(** What the relay client answers to it. *)
Definition relayAnswer (s : RTCv2Service) (r : Request) (claims : ClaimGrants)
    (room : RoomName) (m : Signalv2WireMessage)
  : rpc.RelaySignalv2ParticipantResponse + error :=
  RelaySignalv2Participant (signalv2ParticipantClient s) (Context_ r)
    (ParticipantTopic (topicFormatter s) (Context_ r) room (Identity claims))
    (relayedRequest r claims room m).

(** The status that a first write of chunk [c] commits: the code of a JSON
    error, [StatusOK] for raw bytes. *)
Definition headStatus (c : Chunk) : Z :=
  match c with
  | Json e => code e
  | Raw _ => http.StatusOK
  end.

(** The parameters the validator is called with for [connectRequest]. *)
Definition paramsOf (connectRequest : ConnectRequest) : ValidateConnectRequestParams :=
  {| metadata := Metadata connectRequest;
     attributes := ParticipantAttributes connectRequest |}.

(** The relay request built from a validation result and the serialized
    grants. *)
Definition relayConnectRequest (imp : Imports) (r : Request)
    (connectRequest : ConnectRequest) (res : ValidateConnectRequestResult)
    (grantsJson : bytes) : rpc.RelaySignalv2ConnectRequest :=
  {| rpc.GrantsJson := grantsJson;
     rpc.CreateRoom := createRoomRequest res;
     rpc.ConnectRequest_ := augmented imp r connectRequest |}.

(** The wire message that carries a connect response back. *)
Definition connectReply (resp : rpc.RelaySignalv2ConnectResponse) : Signalv2WireMessage :=
  Signalv2WireMessage_Envelope
    {| ClientMessages := [];
       ServerMessages :=
         [Signalv2ServerMessage_ConnectResponse (rpc.ConnectResponse_ resp)] |}.

(** [connectRequest] goes through: it is validated, its grants serialize,
    its room is placed, the router answers, and the answer encodes to
    [marshalled]. *)
Inductive Connects (imp : Imports) (s : RTCv2Service) (r : Request)
    (connectRequest : ConnectRequest) : bytes -> Prop :=
| connects (res : ValidateConnectRequestResult) (code : Z) (grantsJson : bytes)
    (resp : rpc.RelaySignalv2ConnectResponse) (marshalled : bytes) :
    ValidateConnectRequest imp r (limits s) (paramsOf connectRequest)
      (router s) (roomAllocator s) = (res, code, None) ->
    json_Marshal imp (grants res) = inl grantsJson ->
    SelectRoomNode (roomAllocator s) (Context_ r) (roomName res) "" = None ->
    HandleParticipantConnectRequest (router s) (Context_ r)
      (roomName res) (Identity (grants res))
      (Some (relayConnectRequest imp r connectRequest res grantsJson))
      = inl resp ->
    proto_Marshal imp (connectReply resp) = inl marshalled ->
    Connects imp s r connectRequest marshalled.

(** A PATCH request that passes the content-type gate and every
    authorization check; its body is not looked at. *)
Record PatchAuthorized (imp : Imports) (r : Request) (claims : ClaimGrants)
    (room : RoomName) : Prop :=
  mkPatchAuthorized {
    authorized_content_type :
      http.Header_Get (Header r) "Content-type" = "application/x-protobuf";
    authorized_grants : GetGrants imp (Context_ r) = Some claims;
    authorized_video : Video claims <> None;
    authorized_join : EnsureJoinPermission imp (Context_ r) = (room, None);
    authorized_room : room <> "";
    authorized_identity : Identity claims <> "";
    authorized_participant : PathValue r "participant_id" <> "";
  }.

(** The statuses a PATCH request can be answered with. *)
Definition patchStatuses : list Z :=
  [http.StatusOK; http.StatusBadRequest; http.StatusUnauthorized;
   http.StatusNotFound; http.StatusInternalServerError].

(** A handler step started in a state that satisfies [I] ends in one that
    satisfies [I] when it goes on, and [R] when it returns. *)
Definition keeps {A : Type} (I R : World -> Prop) (h : Handler A) : Prop :=
  forall st, I st ->
    match h st with
    | (st', Some _) => I st'
    | (st', None) => R st'
    end.

(** Nothing has been sent yet. *)
Definition fresh (rw : ResponseWriter) : Prop :=
  committed rw = None /\ body rw = [].

(** Something has been written, and the committed status is the one that
    the first chunk of the body brought with it. *)
Definition headed (rw : ResponseWriter) : Prop :=
  exists c rest, body rw = c :: rest /\ status rw = Some (headStatus c).

(** Every call to the router in the log carries a relay request and is for
    a room that the room allocator was asked about and accepted. *)
Definition routedAfterPlacement (s : RTCv2Service) (r : Request)
    (log : list Call) : Prop :=
  forall room identity req,
    In (Call_HandleParticipantConnectRequest room identity req) log ->
    req <> None
    /\ In (Call_SelectRoomNode room "") log
    /\ SelectRoomNode (roomAllocator s) (Context_ r) room "" = None.

(** The body starts with chunk [c], and the committed status is the one
    that [c] brought with it. *)
Definition startsWith (c : Chunk) (rw : ResponseWriter) : Prop :=
  (exists rest, body rw = c :: rest) /\ status rw = Some (headStatus c).

(** * Properties *)

Example canonical_content_type :
  http.CanonicalMIMEHeaderKey "Content-type" = "Content-Type".
Proof. reflexivity. Qed.

Example header_get_canonical :
  http.Header_Get Doubles.protobufHeader "Content-type" = "application/x-protobuf".
Proof. reflexivity. Qed.

(** ** Steps shared by the two handlers *)

Section Steps.

Variable imp : Imports.
Variable s : RTCv2Service.

Lemma requireContentType_ok (r : Request) (st : World) :
  http.Header_Get (Header r) "Content-type" = cContentType ->
  requireContentType r st = (st, Some tt).
Proof.
  intros Hct. unfold requireContentType.
  rewrite Hct, String.eqb_refl. reflexivity.
Qed.

Lemma requireContentType_reject (r : Request) (st : World) :
  http.Header_Get (Header r) "Content-type" <> cContentType ->
  requireContentType r st =
    ({| w := writeErrorJson http.StatusBadRequest
               (Some (errors_New ("unsupported content-type: "
                        ++ http.Header_Get (Header r) "Content-type"))) (w st);
        calls := calls st |}, None).
Proof.
  intros Hct. unfold requireContentType.
  apply String.eqb_neq in Hct. rewrite Hct. reflexivity.
Qed.

Lemma readWireMessage_ok (r : Request) (b : bytes) (m : Signalv2WireMessage)
    (st : World) :
  Body r = inl b ->
  proto_Unmarshal imp b = inl m ->
  readWireMessage imp r st =
    ({| w := w st; calls := (calls st ++ [Call_ReadAll]) ++ [Call_Unmarshal b] |},
     Some m).
Proof.
  intros Hb Hm. unfold readWireMessage, bind, call, orFail.
  rewrite Hb. cbn. rewrite Hm. reflexivity.
Qed.

End Steps.

(** ** The content-type gate *)

(** C5. On both endpoints a request whose Content-Type header is not
    exactly "application/x-protobuf" is answered with status 400 and one
    JSON error body, and nothing has been called by then: the body was
    neither read nor decoded. *)
Theorem content_type_gate (imp : Imports) (s : RTCv2Service) (r : Request) :
  http.Header_Get (Header r) "Content-type" <> "application/x-protobuf" ->
  let text := "unsupported content-type: "
              ++ http.Header_Get (Header r) "Content-type" in
  let post := run (handlePost imp s r) initial in
  let patch := run (handleParticipantPatch imp s r) initial in
  (failsWith http.StatusBadRequest text (w post) /\ calls post = [])
  /\ (failsWith http.StatusBadRequest text (w patch) /\ calls patch = []).
Proof.
  intros Hct. unfold run, handlePost, handleParticipantPatch, bind.
  rewrite (requireContentType_reject r initial Hct).
  cbn. unfold failsWith. cbn. auto 10.
Qed.

Lemma content_type_gate_witness :
  let r := Doubles.request [("Content-Type", ["application/json"])] "p1" in
  let imp := Doubles.imports Signalv2WireMessage_nil None ("", None) (inl "") in
  http.Header_Get (Header r) "Content-type" <> "application/x-protobuf"
  /\ status (w (run (handlePost imp Doubles.healthy r) initial)) = Some 400
  /\ calls (run (handlePost imp Doubles.healthy r) initial) = []
  /\ status (w (run (handleParticipantPatch imp Doubles.healthy r) initial)) = Some 400
  /\ calls (run (handleParticipantPatch imp Doubles.healthy r) initial) = [].
Proof.
  intros r imp.
  assert (Hct : http.Header_Get (Header r) "Content-type" <> "application/x-protobuf")
    by (vm_compute; discriminate).
  split; [exact Hct |].
  destruct (content_type_gate imp Doubles.healthy r Hct)
    as [[[Hs _] Hc] [[Hs' _] Hc']].
  repeat split; assumption.
Defined.

(** ** The connect endpoint *)

(** C4. When the body of a connect request decodes to a wire message whose
    variant is Fragment, the response is status 400 with the
    fragments-not-allowed error, whatever the fragment holds. *)
Theorem fragment_rejected (imp : Imports) (s : RTCv2Service) (r : Request)
    (b : bytes) (fragment : Fragment) :
  http.Header_Get (Header r) "Content-type" = "application/x-protobuf" ->
  Body r = inl b ->
  proto_Unmarshal imp b = inl (Signalv2WireMessage_Fragment fragment) ->
  failsWith http.StatusBadRequest (Error errFragmentsInHTTP)
    (w (run (handlePost imp s r) initial)).
Proof.
  intros Hct Hb Hm. unfold run, handlePost, bind.
  rewrite (requireContentType_ok r initial Hct).
  rewrite (readWireMessage_ok imp r b _ initial Hb Hm).
  cbn. unfold failsWith. cbn. auto.
Qed.

Lemma fragment_rejected_witness :
  let fragment := {| Fragment_content := "anything" |} in
  let imp := Doubles.imports (Signalv2WireMessage_Fragment fragment)
               None ("", None) (inl "") in
  http.Header_Get (Header Doubles.post) "Content-type" = "application/x-protobuf"
  /\ Body Doubles.post = inl "body"
  /\ proto_Unmarshal imp "body" = inl (Signalv2WireMessage_Fragment fragment)
  /\ failsWith 400 "should not get fragments via HTTP request"
       (w (run (handlePost imp Doubles.healthy Doubles.post) initial)).
Proof.
  intros fragment imp.
  split; [reflexivity |]. split; [reflexivity |]. split; [reflexivity |].
  apply (fragment_rejected imp Doubles.healthy Doubles.post "body" fragment);
    reflexivity.
Defined.

(** C8. When the envelope of a connect request holds a single client
    message and that message is no ConnectRequest, the response is status
    400 with one JSON error body whose error wraps the unknown-message-type
    error and whose text names the type of the message. The handler then
    runs on to its closing [WriteHeader(StatusOK)], which the response
    writer ignores as superfluous. *)
Theorem unknown_message_rejected (imp : Imports) (s : RTCv2Service) (r : Request)
    (b : bytes) (envelope : Envelope) (m : Signalv2ClientMessage) :
  http.Header_Get (Header r) "Content-type" = "application/x-protobuf" ->
  Body r = inl b ->
  proto_Unmarshal imp b = inl (Signalv2WireMessage_Envelope envelope) ->
  ClientMessages envelope = [m] ->
  (forall connectRequest, m <> Signalv2ClientMessage_ConnectRequest connectRequest) ->
  let out := run (handlePost imp s r) initial in
  let err := fmt_Errorf_w "" errUnknownMessageType (", message: " ++ typeName m) in
  errors_Is err errUnknownMessageType
  /\ Error err = "unknown message type, message: " ++ typeName m
  /\ status (w out) = Some http.StatusBadRequest
  /\ body (w out) = [Json {| code := http.StatusBadRequest; message := Error err |}]
  /\ superfluous (w out) = [http.StatusOK].
Proof.
  intros Hct Hb Hm Hmsgs Hother. unfold run, handlePost, bind.
  rewrite (requireContentType_ok r initial Hct).
  rewrite (readWireMessage_ok imp r b _ initial Hb Hm).
  rewrite Hmsgs.
  split; [right; left; reflexivity |].
  split; [reflexivity |].
  destruct m as [connectRequest | variant content |].
  - exfalso. apply (Hother connectRequest). reflexivity.
  - cbn. auto.
  - cbn. auto.
Qed.

Lemma unknown_message_rejected_witness :
  let imp := Doubles.imports (Doubles.envelope [Doubles.ping])
               None ("", None) (inl "") in
  let out := run (handlePost imp Doubles.healthy Doubles.post) initial in
  http.Header_Get (Header Doubles.post) "Content-type" = "application/x-protobuf"
  /\ status (w out) = Some 400
  /\ body (w out) =
       [Json {| code := 400;
                message := "unknown message type, message: *livekit.Signalv2ClientMessage_Ping" |}].
Proof.
  intros imp out.
  split; [reflexivity |].
  destruct (unknown_message_rejected imp Doubles.healthy Doubles.post "body"
              {| ClientMessages := [Doubles.ping]; ServerMessages := [] |}
              Doubles.ping)
    as (_ & _ & Hstatus & Hbody & _);
    try reflexivity.
  - intros connectRequest. discriminate.
  - split; assumption.
Defined.

(** C10. When the body of a connect request decodes to a wire message with
    no variant set, or to an envelope without client messages, the
    response is status 200 with an empty body, and no error was written. *)
Theorem empty_message_accepted (imp : Imports) (s : RTCv2Service) (r : Request)
    (b : bytes) (m : Signalv2WireMessage) :
  http.Header_Get (Header r) "Content-type" = "application/x-protobuf" ->
  Body r = inl b ->
  proto_Unmarshal imp b = inl m ->
  (m = Signalv2WireMessage_nil
   \/ exists envelope,
        m = Signalv2WireMessage_Envelope envelope /\ ClientMessages envelope = []) ->
  let out := run (handlePost imp s r) initial in
  status (w out) = Some http.StatusOK
  /\ body (w out) = []
  /\ superfluous (w out) = []
  /\ calls out = [Call_ReadAll; Call_Unmarshal b].
Proof.
  intros Hct Hb Hm Hempty. unfold run, handlePost, bind.
  rewrite (requireContentType_ok r initial Hct).
  rewrite (readWireMessage_ok imp r b _ initial Hb Hm).
  destruct Hempty as [-> | (envelope & -> & Hmsgs)].
  - cbn. auto.
  - rewrite Hmsgs. cbn. auto.
Qed.

Lemma empty_message_accepted_witness :
  let bare := Doubles.imports Signalv2WireMessage_nil None ("", None) (inl "") in
  let empty := Doubles.imports (Doubles.envelope []) None ("", None) (inl "") in
  (http.Header_Get (Header Doubles.post) "Content-type" = "application/x-protobuf"
   /\ Body Doubles.post = inl "body")
  /\ (status (w (run (handlePost bare Doubles.healthy Doubles.post) initial)) = Some 200
      /\ body (w (run (handlePost bare Doubles.healthy Doubles.post) initial)) = [])
  /\ (status (w (run (handlePost empty Doubles.healthy Doubles.post) initial)) = Some 200
      /\ body (w (run (handlePost empty Doubles.healthy Doubles.post) initial)) = []).
Proof.
  intros bare empty.
  split; [split; reflexivity |].
  split.
  - destruct (empty_message_accepted bare Doubles.healthy Doubles.post "body"
                Signalv2WireMessage_nil) as (Hstatus & Hbody & _);
      try reflexivity.
    + left. reflexivity.
    + split; assumption.
  - destruct (empty_message_accepted empty Doubles.healthy Doubles.post "body"
                (Doubles.envelope [])) as (Hstatus & Hbody & _);
      try reflexivity.
    + right. eexists. split; reflexivity.
    + split; assumption.
Defined.



(** C1. The envelope [Ping; ConnectRequest]: the first client message is
    answered with status 400 and the unknown-message-type error, and the
    handler does not return. It goes on to the connect request: the
    validator, the room allocator and the router are called, the encoded
    connect response is appended to the body after the JSON error, and the
    closing [WriteHeader(StatusOK)] is issued, which the response writer
    ignores because status 400 is committed. *)
Theorem unknown_message_does_not_stop_processing :
  let imp := Doubles.imports
               (Doubles.envelope
                  [Doubles.ping;
                   Signalv2ClientMessage_ConnectRequest Doubles.connectRequest])
               None ("", None) (inl "{}") in
  let out := run (handlePost imp Doubles.healthy Doubles.post) initial in
  let relayRequest :=
    {| rpc.GrantsJson := "{}";
       rpc.CreateRoom := None;
       rpc.ConnectRequest_ :=
         {| Metadata := "meta"; ParticipantAttributes := [("k", "v")];
            ClientInfo_ := Some [("sdk", "go"); ("address", "10.0.0.1")] |} |} in
  status (w out) = Some 400
  /\ body (w out) =
       [Json {| code := 400;
                message := "unknown message type, message: *livekit.Signalv2ClientMessage_Ping" |};
        Raw "<envelope>"]
  /\ superfluous (w out) = [200]
  /\ calls out =
       [Call_ReadAll;
        Call_Unmarshal "body";
        Call_ValidateConnectRequest
          {| metadata := "meta"; attributes := [("k", "v")] |};
        Call_json_Marshal Doubles.aliceGrants;
        Call_SelectRoomNode "alpha" "";
        Call_HandleParticipantConnectRequest "alpha" "alice" (Some relayRequest);
        Call_Marshal
          (Signalv2WireMessage_Envelope
             {| ClientMessages := [];
                ServerMessages :=
                  [Signalv2ServerMessage_ConnectResponse Doubles.connectResponse] |})].
Proof.
  vm_compute. repeat split; reflexivity.
Qed.

(** ** The participant endpoint *)

(** The state in which an accepted PATCH request reaches the relay call. *)
Lemma patch_reaches_relay (imp : Imports) (s : RTCv2Service) (r : Request)
    (claims : ClaimGrants) (room : RoomName) (b : bytes) (m : Signalv2WireMessage) :
  PatchAccepted imp r claims room b m ->
  run (handleParticipantPatch imp s r) initial =
    let reached :=
      {| w := newResponseWriter;
         calls := [Call_GetGrants; Call_EnsureJoinPermission; Call_ReadAll;
                   Call_Unmarshal b;
                   Call_RelaySignalv2Participant
                     (ParticipantTopic (topicFormatter s) (Context_ r) room
                        (Identity claims))
                     (relayedRequest r claims room m)] |} in
    match relayAnswer s r claims room m with
    | inr err =>
        {| w := writeErrorJson (fst (relayError err)) (snd (relayError err))
                  newResponseWriter;
           calls := calls reached |}
    | inl res =>
        match proto_Marshal imp (rpc.WireMessage_ res) with
        | inr e =>
            {| w := writeErrorJson http.StatusInternalServerError (Some e)
                      newResponseWriter;
               calls := (calls reached ++ [Call_Marshal (rpc.WireMessage_ res)])%list |}
        | inl marshalled =>
            {| w := WriteHeader http.StatusOK
                      (Write (Raw marshalled)
                         (Header_Add "Content-type" "application/x-protobuf"
                            newResponseWriter));
               calls := (calls reached ++ [Call_Marshal (rpc.WireMessage_ res)])%list |}
        end
    end.
Proof.
  intros [Hct Hgrants Hvideo Hjoin Hroom Hid Hpid Hb Hm].
  unfold run, handleParticipantPatch, bind.
  rewrite (requireContentType_ok r initial Hct).
  unfold call at 1. cbn -[readWireMessage]. rewrite Hgrants.
  destruct (Video claims) as [v |] eqn:Hv; [| contradiction].
  cbn -[readWireMessage]. rewrite Hjoin. cbn -[readWireMessage].
  apply String.eqb_neq in Hroom, Hid, Hpid.
  rewrite Hroom. cbn -[readWireMessage].
  rewrite Hid. cbn -[readWireMessage].
  rewrite Hpid. cbn -[readWireMessage].
  rewrite (readWireMessage_ok imp r b m _ Hb Hm). cbn.
  unfold relayAnswer, relayedRequest.
  destruct (RelaySignalv2Participant _ _ _ _) as [res | err].
  - cbn. destruct (proto_Marshal imp (rpc.WireMessage_ res)); reflexivity.
  - destruct (relayError err). reflexivity.
Qed.

(** C3. A failure of the relay call is translated by its psrpc code: code
    NotFound gives status 404, code InvalidArgument status 400, any other
    code status 500, each with the message of the psrpc error as the text
    of the JSON error body; a failure that is no psrpc error gives status
    500 with the generic internal-error text. *)
Theorem rpc_error_mapping (imp : Imports) (s : RTCv2Service) (r : Request)
    (claims : ClaimGrants) (room : RoomName) (b : bytes)
    (m : Signalv2WireMessage) (err : error) :
  PatchAccepted imp r claims room b m ->
  relayAnswer s r claims room m = inr err ->
  let out := w (run (handleParticipantPatch imp s r) initial) in
  (forall msg, errors_As_psrpc err = Some (psrpc.NotFound, msg) ->
     failsWith http.StatusNotFound msg out)
  /\ (forall msg, errors_As_psrpc err = Some (psrpc.InvalidArgument, msg) ->
        failsWith http.StatusBadRequest msg out)
  /\ (forall code msg, errors_As_psrpc err = Some (code, msg) ->
        code <> psrpc.NotFound -> code <> psrpc.InvalidArgument ->
        failsWith http.StatusInternalServerError msg out)
  /\ (errors_As_psrpc err = None ->
        failsWith http.StatusInternalServerError genericInternalError out).
Proof.
  intros Hacc Hrelay out. subst out.
  rewrite (patch_reaches_relay imp s r claims room b m Hacc).
  cbv zeta. rewrite Hrelay. unfold relayError, failsWith.
  split; [| split; [| split]].
  - intros msg Has. rewrite Has. cbn. auto.
  - intros msg Has. rewrite Has. cbn. auto.
  - intros code msg Has Hnf Hia. rewrite Has.
    apply String.eqb_neq in Hnf, Hia. rewrite Hnf, Hia. cbn. auto.
  - intros Has. rewrite Has. cbn. auto.
Qed.

Lemma doubles_accepted (decoded : Signalv2WireMessage) :
  PatchAccepted (Doubles.authorized decoded) Doubles.patch Doubles.aliceGrants
    "alpha" "body" decoded.
Proof.
  constructor; try reflexivity; cbn; discriminate.
Qed.

Lemma rpc_error_mapping_witness :
  let answer err :=
    w (run (handleParticipantPatch (Doubles.authorized Signalv2WireMessage_nil)
              (Doubles.relaying (inr err)) Doubles.patch) initial) in
  PatchAccepted (Doubles.authorized Signalv2WireMessage_nil) Doubles.patch
    Doubles.aliceGrants "alpha" "body" Signalv2WireMessage_nil
  /\ failsWith 404 "participant not found"
       (answer (psrpc_Error psrpc.NotFound "participant not found"))
  /\ failsWith 400 "bad sid"
       (answer (fmt_Errorf_w "relay: "
                  (psrpc_Error psrpc.InvalidArgument "bad sid") ""))
  /\ failsWith 500 "node unavailable"
       (answer (psrpc_Error "unavailable" "node unavailable"))
  /\ failsWith 500 "internal error" (answer (errors_New "connection reset")).
Proof.
  intros answer.
  pose proof (doubles_accepted Signalv2WireMessage_nil) as Hacc.
  split; [exact Hacc |].
  split; [| split; [| split]].
  - destruct (rpc_error_mapping _
                (Doubles.relaying (inr (psrpc_Error psrpc.NotFound "participant not found")))
                _ _ _ _ _ _ Hacc eq_refl) as (Hnf & _).
    apply Hnf. reflexivity.
  - destruct (rpc_error_mapping _
                (Doubles.relaying
                   (inr (fmt_Errorf_w "relay: "
                           (psrpc_Error psrpc.InvalidArgument "bad sid") "")))
                _ _ _ _ _ _ Hacc eq_refl) as (_ & Hia & _).
    apply Hia. reflexivity.
  - destruct (rpc_error_mapping _
                (Doubles.relaying (inr (psrpc_Error "unavailable" "node unavailable")))
                _ _ _ _ _ _ Hacc eq_refl) as (_ & _ & Hother & _).
    apply (Hother "unavailable"); [reflexivity | discriminate | discriminate].
  - destruct (rpc_error_mapping _
                (Doubles.relaying (inr (errors_New "connection reset")))
                _ _ _ _ _ _ Hacc eq_refl) as (_ & _ & _ & Huntyped).
    apply Huntyped. reflexivity.
Defined.

(** C7. An accepted PATCH request is relayed with the decoded wire message
    as it is, whatever its variant, together with the room, the identity
    and the participant id; when the relay call answers with a wire
    message whose encoding is [marshalled], the response is status 200,
    sent with the protobuf content type, and its body is [marshalled].
    The closing [WriteHeader(StatusOK)] repeats the status that the write
    of the body has committed. *)
Theorem participant_relay_success (imp : Imports) (s : RTCv2Service) (r : Request)
    (claims : ClaimGrants) (room : RoomName) (b : bytes)
    (m : Signalv2WireMessage) (res : rpc.RelaySignalv2ParticipantResponse)
    (marshalled : bytes) :
  PatchAccepted imp r claims room b m ->
  relayAnswer s r claims room m = inl res ->
  proto_Marshal imp (rpc.WireMessage_ res) = inl marshalled ->
  let out := run (handleParticipantPatch imp s r) initial in
  calls out =
    [Call_GetGrants; Call_EnsureJoinPermission; Call_ReadAll; Call_Unmarshal b;
     Call_RelaySignalv2Participant
       (ParticipantTopic (topicFormatter s) (Context_ r) room (Identity claims))
       {| rpc.Room := room;
          rpc.ParticipantIdentity_ := Identity claims;
          rpc.ParticipantId := PathValue r "participant_id";
          rpc.WireMessage := m |};
     Call_Marshal (rpc.WireMessage_ res)]
  /\ committed (w out) =
       Some (http.StatusOK, [("Content-Type", ["application/x-protobuf"])])
  /\ body (w out) = [Raw marshalled]
  /\ superfluous (w out) = [http.StatusOK].
Proof.
  intros Hacc Hrelay Henc out. subst out.
  rewrite (patch_reaches_relay imp s r claims room b m Hacc).
  cbv zeta. rewrite Hrelay, Henc. cbn. auto.
Qed.

Lemma participant_relay_success_witness :
  let fragment := Signalv2WireMessage_Fragment {| Fragment_content := "part 2/3" |} in
  let reply := Signalv2WireMessage_Fragment {| Fragment_content := "ack" |} in
  let out := run (handleParticipantPatch (Doubles.authorized fragment)
                    (Doubles.relaying (inl {| rpc.WireMessage_ := reply |}))
                    Doubles.patch) initial in
  PatchAccepted (Doubles.authorized fragment) Doubles.patch
    Doubles.aliceGrants "alpha" "body" fragment
  /\ In (Call_RelaySignalv2Participant "alpha|alice"
           {| rpc.Room := "alpha"; rpc.ParticipantIdentity_ := "alice";
              rpc.ParticipantId := "p1"; rpc.WireMessage := fragment |})
        (calls out)
  /\ status (w out) = Some 200
  /\ body (w out) = [Raw "<fragment:ack>"].
Proof.
  intros fragment reply out.
  pose proof (doubles_accepted fragment) as Hacc.
  split; [exact Hacc |].
  destruct (participant_relay_success _
              (Doubles.relaying (inl {| rpc.WireMessage_ := reply |}))
              _ _ _ _ _ _ "<fragment:ack>" Hacc eq_refl eq_refl)
    as (Hcalls & Hcommitted & Hbody & _).
  split; [| split].
  - subst out. rewrite Hcalls. cbn. auto 10.
  - subst out. unfold status. rewrite Hcommitted. reflexivity.
  - exact Hbody.
Defined.

(** C2. Past the content-type gate, the authorization checks of a PATCH
    request come in a fixed order, and the first that fails decides the
    response: absent grants or an absent video grant give 401 with the
    permission-denied error, before the join permission is even asked
    for; then a join-permission failure gives 401 with its error; then an
    empty room name gives 401 with the no-room-name error; then an empty
    identity gives 401 with the identity-empty error, whatever the
    participant id is; then an empty participant id gives 400 with the
    participant-sid-empty error. In none of these cases is the body
    read. *)
Theorem auth_gating_order (imp : Imports) (s : RTCv2Service) (r : Request) :
  http.Header_Get (Header r) "Content-type" = "application/x-protobuf" ->
  let out := run (handleParticipantPatch imp s r) initial in
  let claims := GetGrants imp (Context_ r) in
  let join := EnsureJoinPermission imp (Context_ r) in
  let denied statusCode e asked :=
    failsWith statusCode (Error e) (w out) /\ calls out = asked in
  ((claims = None \/ exists c, claims = Some c /\ Video c = None) ->
     denied http.StatusUnauthorized (rtc_ErrPermissionDenied imp) [Call_GetGrants])
  /\ (forall c v, claims = Some c -> Video c = Some v ->
      let asked := [Call_GetGrants; Call_EnsureJoinPermission] in
      (forall room e, join = (room, Some e) ->
         denied http.StatusUnauthorized e asked)
      /\ (join = ("", None) ->
            denied http.StatusUnauthorized (ErrNoRoomName imp) asked)
      /\ (forall room, join = (room, None) -> room <> "" ->
            Identity c = "" ->
            denied http.StatusUnauthorized (ErrIdentityEmpty imp) asked)
      /\ (forall room, join = (room, None) -> room <> "" ->
            Identity c <> "" -> PathValue r "participant_id" = "" ->
            denied http.StatusBadRequest (ErrParticipantSidEmpty imp) asked)).
Proof.
  intros Hct out claims join denied. subst out claims join denied.
  unfold run, handleParticipantPatch, bind.
  rewrite (requireContentType_ok r initial Hct).
  unfold call at 1. cbn -[readWireMessage].
  split.
  - intros [Hnone | (c & Hsome & Hvideo)].
    + rewrite Hnone. cbn. unfold failsWith. cbn. auto.
    + rewrite Hsome, Hvideo. cbn. unfold failsWith. cbn. auto.
  - intros c v Hsome Hvideo. rewrite Hsome, Hvideo. cbn -[readWireMessage].
    split; [| split; [| split]].
    + intros room e Hjoin. rewrite Hjoin. cbn. unfold failsWith. cbn. auto.
    + intros Hjoin. rewrite Hjoin. cbn. unfold failsWith. cbn. auto.
    + intros room Hjoin Hroom Hid. rewrite Hjoin. cbn -[readWireMessage].
      apply String.eqb_neq in Hroom. rewrite Hroom, Hid.
      cbn. unfold failsWith. cbn. auto.
    + intros room Hjoin Hroom Hid Hpid. rewrite Hjoin. cbn -[readWireMessage].
      apply String.eqb_neq in Hroom, Hid. rewrite Hroom. cbn -[readWireMessage].
      rewrite Hid. cbn -[readWireMessage]. rewrite Hpid.
      cbn. unfold failsWith. cbn. auto.
Qed.

Lemma auth_gating_order_witness :
  let answer claims join pID :=
    w (run (handleParticipantPatch
              (Doubles.imports Signalv2WireMessage_nil claims join (inl "{}"))
              Doubles.healthy
              (Doubles.request Doubles.protobufHeader pID)) initial) in
  let anonymous := {| Identity := ""; Video := Some "roomJoin" |} in
  http.Header_Get Doubles.protobufHeader "Content-type" = "application/x-protobuf"
  /\ failsWith 401 "permissions denied" (answer None ("", None) "")
  /\ failsWith 401 "permissions denied"
       (answer (Some {| Identity := ""; Video := None |}) ("", None) "")
  /\ failsWith 401 "not allowed to join"
       (answer (Some anonymous) ("", Some (errors_New "not allowed to join")) "")
  /\ failsWith 401 "no room name" (answer (Some anonymous) ("", None) "")
  /\ failsWith 401 "identity cannot be empty"
       (answer (Some anonymous) ("alpha", None) "")
  /\ failsWith 400 "participant sid cannot be empty"
       (answer (Some Doubles.aliceGrants) ("alpha", None) "").
Proof.
  intros answer anonymous.
  assert (Hct : forall pID,
             http.Header_Get (Header (Doubles.request Doubles.protobufHeader pID))
               "Content-type" = "application/x-protobuf") by reflexivity.
  split; [reflexivity |].
  split; [| split; [| split; [| split; [| split]]]].
  - destruct (auth_gating_order
                (Doubles.imports Signalv2WireMessage_nil None ("", None) (inl "{}"))
                Doubles.healthy (Doubles.request Doubles.protobufHeader "") (Hct ""))
      as (Hgrants & _).
    apply Hgrants. left. reflexivity.
  - destruct (auth_gating_order
                (Doubles.imports Signalv2WireMessage_nil
                   (Some {| Identity := ""; Video := None |}) ("", None) (inl "{}"))
                Doubles.healthy (Doubles.request Doubles.protobufHeader "") (Hct ""))
      as (Hgrants & _).
    apply Hgrants. right. eexists. split; reflexivity.
  - destruct (auth_gating_order
                (Doubles.imports Signalv2WireMessage_nil (Some anonymous)
                   ("", Some (errors_New "not allowed to join")) (inl "{}"))
                Doubles.healthy (Doubles.request Doubles.protobufHeader "") (Hct ""))
      as (_ & Hrest).
    destruct (Hrest anonymous "roomJoin" eq_refl eq_refl) as (Hjoin & _).
    apply (Hjoin "" (errors_New "not allowed to join")). reflexivity.
  - destruct (auth_gating_order
                (Doubles.imports Signalv2WireMessage_nil (Some anonymous)
                   ("", None) (inl "{}"))
                Doubles.healthy (Doubles.request Doubles.protobufHeader "") (Hct ""))
      as (_ & Hrest).
    destruct (Hrest anonymous "roomJoin" eq_refl eq_refl) as (_ & Hroom & _).
    apply Hroom. reflexivity.
  - destruct (auth_gating_order
                (Doubles.imports Signalv2WireMessage_nil (Some anonymous)
                   ("alpha", None) (inl "{}"))
                Doubles.healthy (Doubles.request Doubles.protobufHeader "") (Hct ""))
      as (_ & Hrest).
    destruct (Hrest anonymous "roomJoin" eq_refl eq_refl) as (_ & _ & Hid & _).
    apply (Hid "alpha"); [reflexivity | discriminate | reflexivity].
  - destruct (auth_gating_order
                (Doubles.imports Signalv2WireMessage_nil (Some Doubles.aliceGrants)
                   ("alpha", None) (inl "{}"))
                Doubles.healthy (Doubles.request Doubles.protobufHeader "") (Hct ""))
      as (_ & Hrest).
    destruct (Hrest Doubles.aliceGrants "roomJoin" eq_refl eq_refl)
      as (_ & _ & _ & Hpid).
    apply (Hpid "alpha"); [reflexivity | discriminate | discriminate | reflexivity].
Defined.

(** * Further properties of the handlers *)

(** ** The connect endpoint, one connect request *)


(** X2. When an envelope holds one connect request and every step
    succeeds, the router is called for the room the validator named and
    the identity of the grants, with the serialized grants, the
    room-creation directive and the augmented connect request; the
    response is status 200 with the protobuf content type, and its body
    is the encoding of an envelope whose only server message is the
    router's connect response. *)
Theorem connect_success (imp : Imports) (s : RTCv2Service) (r : Request)
    (b : bytes) (envelope : Envelope) (connectRequest : ConnectRequest)
    (res : ValidateConnectRequestResult) (code : Z) (grantsJson : bytes)
    (resp : rpc.RelaySignalv2ConnectResponse) (marshalled : bytes) :
  http.Header_Get (Header r) "Content-type" = "application/x-protobuf" ->
  Body r = inl b ->
  proto_Unmarshal imp b = inl (Signalv2WireMessage_Envelope envelope) ->
  ClientMessages envelope = [Signalv2ClientMessage_ConnectRequest connectRequest] ->
  ValidateConnectRequest imp r (limits s) (paramsOf connectRequest)
    (router s) (roomAllocator s) = (res, code, None) ->
  json_Marshal imp (grants res) = inl grantsJson ->
  SelectRoomNode (roomAllocator s) (Context_ r) (roomName res) "" = None ->
  HandleParticipantConnectRequest (router s) (Context_ r)
    (roomName res) (Identity (grants res))
    (Some (relayConnectRequest imp r connectRequest res grantsJson)) = inl resp ->
  proto_Marshal imp (connectReply resp) = inl marshalled ->
  let out := run (handlePost imp s r) initial in
  committed (w out) =
    Some (http.StatusOK, [("Content-Type", ["application/x-protobuf"])])
  /\ body (w out) = [Raw marshalled]
  /\ calls out =
       [Call_ReadAll; Call_Unmarshal b;
        Call_ValidateConnectRequest (paramsOf connectRequest);
        Call_json_Marshal (grants res);
        Call_SelectRoomNode (roomName res) "";
        Call_HandleParticipantConnectRequest (roomName res) (Identity (grants res))
          (Some (relayConnectRequest imp r connectRequest res grantsJson));
        Call_Marshal (connectReply resp)].
Proof.
  intros Hct Hb Hm Hmsgs Hvalid Hjson Hsel Hroute Henc.
  unfold run, handlePost, bind.
  rewrite (requireContentType_ok r initial Hct).
  rewrite (readWireMessage_ok imp r b _ initial Hb Hm).
  rewrite Hmsgs.
  unfold forRange, handleClientMessage, validateInternal, bind, call, orFail.
  unfold paramsOf in Hvalid. unfold relayConnectRequest in Hroute.
  unfold connectReply in Henc.
  cbn. rewrite Hvalid. cbn. rewrite Hjson. cbn. rewrite Hsel. cbn.
  rewrite Hroute. cbn. rewrite Henc. cbn. auto.
Qed.

Lemma append_empty_r (t : string) : t ++ "" = t.
Proof.
  induction t as [| c t IH]; cbn; [reflexivity | now rewrite IH].
Qed.

Lemma Error_wrap (pre : string) (e : error) :
  Error (fmt_Errorf_w pre e "") = pre ++ Error e.
Proof.
  cbn [Error]. now rewrite append_empty_r.
Qed.

Lemma failsWith_writeErrorJson (statusCode : Z) (err : option error) :
  failsWith statusCode (errorText err) (writeErrorJson statusCode err newResponseWriter).
Proof.
  unfold failsWith. cbn. auto.
Qed.

(** X3. On the connect endpoint a body that cannot be read, or that does
    not decode, is answered with status 400 and a text that names the
    step and carries the cause; no collaborator is called. *)
Theorem post_body_failures (imp : Imports) (s : RTCv2Service) (r : Request) :
  http.Header_Get (Header r) "Content-type" = "application/x-protobuf" ->
  let out := run (handlePost imp s r) initial in
  (forall e, Body r = inr e ->
     failsWith http.StatusBadRequest
       ("could not read request body: " ++ Error e) (w out)
     /\ calls out = [Call_ReadAll])
  /\ (forall b e, Body r = inl b -> proto_Unmarshal imp b = inr e ->
        failsWith http.StatusBadRequest
          ("could not unmarshal request: " ++ Error e) (w out)
        /\ calls out = [Call_ReadAll; Call_Unmarshal b]).
Proof.
  intros Hct out. subst out. unfold run, handlePost, bind.
  rewrite (requireContentType_ok r initial Hct).
  unfold readWireMessage, bind, call, orFail.
  split.
  - intros e Hb. rewrite Hb. cbn -[String.append]. rewrite <- Error_wrap.
    split; [exact (failsWith_writeErrorJson _ (Some (fmt_Errorf_w _ e ""))) | reflexivity].
  - intros b e Hb Hm. rewrite Hb. cbn -[String.append]. rewrite Hm.
    cbn -[String.append]. rewrite <- Error_wrap.
    split; [exact (failsWith_writeErrorJson _ (Some (fmt_Errorf_w _ e ""))) | reflexivity].
Qed.

(** ** Invariants of the loop over the client messages *)

Lemma keeps_forRange {A : Type} (I R : World -> Prop) (xs : list A)
    (body : A -> Handler unit) :
  (forall x, keeps I R (body x)) ->
  keeps I R (forRange xs body).
Proof.
  intros Hbody. induction xs as [| x xs IH]; intros st HI; cbn.
  - exact HI.
  - unfold bind. specialize (Hbody x st HI).
    destruct (body x st) as [st' [[] |]].
    + apply IH. exact Hbody.
    + exact Hbody.
Qed.

Lemma headed_writeErrorJson (statusCode : Z) (err : option error)
    (rw : ResponseWriter) :
  fresh rw \/ headed rw -> headed (writeErrorJson statusCode err rw).
Proof.
  unfold fresh, headed, writeErrorJson, Write, WriteHeader, status.
  intros [[Hc Hb] | (c & rest & Hb & Hs)].
  - rewrite Hc. cbn. rewrite Hb. cbn. eauto.
  - destruct (committed rw) as [[code hdr] |] eqn:Hc; [| discriminate].
    cbn. rewrite Hb. cbn. eauto.
Qed.

Lemma headed_Write_Raw (marshalled : bytes) (key value : string)
    (rw : ResponseWriter) :
  fresh rw \/ headed rw ->
  headed (Write (Raw marshalled) (Header_Add key value rw)).
Proof.
  unfold fresh, headed, Write, WriteHeader, Header_Add, status.
  intros [[Hc Hb] | (c & rest & Hb & Hs)]; cbn.
  - rewrite Hc. cbn. rewrite Hb. cbn. eauto.
  - destruct (committed rw) as [[code hdr] |] eqn:Hc; [| discriminate].
    cbn. rewrite Hb. cbn. eauto.
Qed.

Lemma handleClientMessage_keeps_headed (imp : Imports) (s : RTCv2Service)
    (r : Request) (m : Signalv2ClientMessage) :
  keeps (fun st => fresh (w st) \/ headed (w st)) (fun st => headed (w st))
    (handleClientMessage imp s r m).
Proof.
  intros st HI.
  unfold handleClientMessage, validateInternal, bind, call, orFail,
    HandleErrorJson, onWriter, ret, return_.
  destruct m as [connectRequest | variant content |]; cbn.
  - destruct (ValidateConnectRequest imp r _ _ _ _) as [[res code] [e |]]; cbn.
    + apply headed_writeErrorJson. exact HI.
    + destruct (json_Marshal imp (grants res)) as [grantsJson | e]; cbn.
      * destruct (SelectRoomNode _ _ _ _) as [e |]; cbn.
        -- apply headed_writeErrorJson. exact HI.
        -- destruct (HandleParticipantConnectRequest _ _ _ _ _) as [resp | e]; cbn.
           ++ destruct (proto_Marshal imp _) as [marshalled | e]; cbn.
              ** right. apply headed_Write_Raw. exact HI.
              ** apply headed_writeErrorJson. exact HI.
           ++ apply headed_writeErrorJson. exact HI.
      * apply headed_writeErrorJson. exact HI.
  - right. apply headed_writeErrorJson. exact HI.
  - right. apply headed_writeErrorJson. exact HI.
Qed.

(** X4. Whatever the request and whatever the collaborators answer, the
    connect endpoint commits a status, and it is the status of the first
    thing written: with an empty body the status is 200; otherwise it is
    the code of the JSON error when the body starts with one, and 200 when
    it starts with an encoded response. What is written later in the same
    request does not change it. *)
Theorem post_status_is_first_write (imp : Imports) (s : RTCv2Service) (r : Request) :
  let out := w (run (handlePost imp s r) initial) in
  (body out = [] /\ status out = Some http.StatusOK) \/ headed out.
Proof.
  cbv zeta. unfold run, handlePost, bind, requireContentType.
  destruct (negb _); cbn -[readWireMessage forRange].
  { right. apply headed_writeErrorJson. left. split; reflexivity. }
  unfold readWireMessage, bind, call, orFail. cbn -[forRange].
  destruct (Body r) as [b | e]; cbn -[forRange].
  2: { right. apply headed_writeErrorJson. left. split; reflexivity. }
  destruct (proto_Unmarshal imp b) as [[envelope | fragment |] | e];
    cbn -[forRange].
  - pose proof (keeps_forRange _ _ (ClientMessages envelope) _
                  (handleClientMessage_keeps_headed imp s r)
                  {| w := newResponseWriter;
                     calls := [Call_ReadAll; Call_Unmarshal b] |}
                  (or_introl (conj eq_refl eq_refl))) as Hloop.
    destruct (forRange _ _ _) as [st' [[] |]]; cbn.
    + destruct Hloop as [[Hc Hb] | (c & rest & Hb & Hs)].
      * left. unfold WriteHeader, status. rewrite Hc. cbn. auto.
      * right. exists c, rest. unfold WriteHeader, status in *.
        destruct (committed (w st')); [cbn; auto | discriminate].
    + right. exact Hloop.
  - right. apply headed_writeErrorJson. left. split; reflexivity.
  - left. split; reflexivity.
  - right. apply headed_writeErrorJson. left. split; reflexivity.
Qed.

Lemma body_Write (c : Chunk) (rw : ResponseWriter) :
  body (Write c rw) = (body rw ++ [c])%list.
Proof.
  unfold Write, WriteHeader. destruct (committed rw); reflexivity.
Qed.

Lemma status_Write (c : Chunk) (rw : ResponseWriter) :
  status (Write c rw) =
    match status rw with
    | Some code => Some code
    | None => Some http.StatusOK
    end.
Proof.
  unfold Write, WriteHeader, status.
  destruct (committed rw) as [[code hdr] |] eqn:Hc; cbn; [rewrite Hc |]; reflexivity.
Qed.

Lemma handleClientMessage_connects (imp : Imports) (s : RTCv2Service)
    (r : Request) (connectRequest : ConnectRequest) (marshalled : bytes)
    (st : World) :
  Connects imp s r connectRequest marshalled ->
  exists st',
    handleClientMessage imp s r
      (Signalv2ClientMessage_ConnectRequest connectRequest) st = (st', Some tt)
    /\ w st' = Write (Raw marshalled)
                 (Header_Add "Content-type" "application/x-protobuf" (w st)).
Proof.
  intros [res code grantsJson resp out Hvalid Hjson Hsel Hroute Henc].
  unfold handleClientMessage, validateInternal, bind, call, orFail.
  unfold paramsOf in Hvalid. unfold relayConnectRequest in Hroute.
  unfold connectReply in Henc.
  cbn. rewrite Hvalid. cbn. rewrite Hjson. cbn. rewrite Hsel. cbn.
  rewrite Hroute. cbn. rewrite Henc. cbn.
  eexists. split; reflexivity.
Qed.

Lemma forRange_connects (imp : Imports) (s : RTCv2Service) (r : Request)
    (connectRequests : list ConnectRequest) (outs : list bytes) :
  Forall2 (Connects imp s r) connectRequests outs ->
  forall st,
    status (w st) = None \/ status (w st) = Some http.StatusOK ->
    exists st',
      forRange (map Signalv2ClientMessage_ConnectRequest connectRequests)
        (handleClientMessage imp s r) st = (st', Some tt)
      /\ body (w st') = (body (w st) ++ map Raw outs)%list
      /\ (status (w st') = status (w st) /\ outs = []
          \/ status (w st') = Some http.StatusOK).
Proof.
  induction 1 as [| connectRequest marshalled connectRequests outs Hc _ IH];
    intros st Hst.
  - exists st. cbn. rewrite app_nil_r. auto.
  - cbn [map forRange]. unfold bind.
    destruct (handleClientMessage_connects imp s r connectRequest marshalled st Hc)
      as (st1 & Hstep & Hw).
    rewrite Hstep.
    assert (Hst1 : status (w st1) = Some http.StatusOK).
    { rewrite Hw, status_Write. unfold status, Header_Add. cbn.
      unfold status in Hst. destruct Hst as [-> | ->]; reflexivity. }
    destruct (IH st1 (or_intror Hst1)) as (st' & Hloop & Hbody & Hstatus).
    exists st'. split; [exact Hloop |]. split.
    + rewrite Hbody, Hw, body_Write. unfold Header_Add. cbn.
      now rewrite <- app_assoc.
    + right. destruct Hstatus as [[-> _] | ->]; [exact Hst1 | reflexivity].
Qed.

(** X5. The connect endpoint answers every connect request of an envelope,
    not only the first: when each one goes through, the body is the
    sequence of their encoded connect responses, in the order of the
    envelope, under status 200. *)
Theorem every_connect_request_is_answered (imp : Imports) (s : RTCv2Service)
    (r : Request) (b : bytes) (envelope : Envelope)
    (connectRequests : list ConnectRequest) (outs : list bytes) :
  http.Header_Get (Header r) "Content-type" = "application/x-protobuf" ->
  Body r = inl b ->
  proto_Unmarshal imp b = inl (Signalv2WireMessage_Envelope envelope) ->
  ClientMessages envelope =
    map Signalv2ClientMessage_ConnectRequest connectRequests ->
  Forall2 (Connects imp s r) connectRequests outs ->
  let out := w (run (handlePost imp s r) initial) in
  status out = Some http.StatusOK /\ body out = map Raw outs.
Proof.
  intros Hct Hb Hm Hmsgs Hall. unfold run, handlePost, bind.
  rewrite (requireContentType_ok r initial Hct).
  rewrite (readWireMessage_ok imp r b _ initial Hb Hm).
  rewrite Hmsgs.
  destruct (forRange_connects imp s r connectRequests outs Hall
              {| w := w initial;
                 calls := (calls initial ++ [Call_ReadAll]) ++ [Call_Unmarshal b] |}
              (or_introl eq_refl))
    as (st' & Hloop & Hbody & Hstatus).
  rewrite Hloop. cbn. cbn in Hbody, Hstatus.
  split.
  - unfold status, WriteHeader in *.
    destruct Hstatus as [[Hs _] | Hs];
      destruct (committed (w st')) as [[code hdr] |]; cbn in *;
      try discriminate; try exact Hs; reflexivity.
  - unfold WriteHeader. destruct (committed (w st')); cbn; exact Hbody.
Qed.

Lemma routedAfterPlacement_app (s : RTCv2Service) (r : Request)
    (log delta : list Call) :
  routedAfterPlacement s r log ->
  (forall room identity req,
     In (Call_HandleParticipantConnectRequest room identity req) delta ->
     req <> None
     /\ In (Call_SelectRoomNode room "") delta
     /\ SelectRoomNode (roomAllocator s) (Context_ r) room "" = None) ->
  routedAfterPlacement s r (log ++ delta).
Proof.
  intros Hlog Hdelta room identity req Hin.
  apply in_app_or in Hin. destruct Hin as [Hin | Hin].
  - destruct (Hlog room identity req Hin) as (Hreq & Hsel & Hnone).
    repeat split; auto. apply in_or_app. left. exact Hsel.
  - destruct (Hdelta room identity req Hin) as (Hreq & Hsel & Hnone).
    repeat split; auto. apply in_or_app. right. exact Hsel.
Qed.

#[local] Ltac routed_delta :=
  repeat rewrite <- app_assoc; cbn [app];
  apply routedAfterPlacement_app; [assumption |];
  let room := fresh "room" in
  let identity := fresh "identity" in
  let req := fresh "req" in
  let Hin := fresh "Hin" in
  intros room identity req Hin; cbn in Hin;
  repeat (destruct Hin as [Hin | Hin]; [try discriminate Hin |]);
  try contradiction.

Lemma handleClientMessage_keeps_routed (imp : Imports) (s : RTCv2Service)
    (r : Request) (m : Signalv2ClientMessage) :
  keeps (fun st => routedAfterPlacement s r (calls st))
        (fun st => routedAfterPlacement s r (calls st))
        (handleClientMessage imp s r m).
Proof.
  intros st HI.
  unfold handleClientMessage, validateInternal, bind, call, orFail,
    HandleErrorJson, onWriter, ret, return_.
  destruct m as [connectRequest | variant content |]; cbn; try exact HI.
  destruct (ValidateConnectRequest imp r _ _ _ _) as [[res code] [e |]]; cbn.
  { routed_delta. }
  destruct (json_Marshal imp (grants res)) as [grantsJson | e]; cbn.
  2: { routed_delta. }
  destruct (SelectRoomNode _ _ _ _) as [e |] eqn:Hsel; cbn.
  { routed_delta. }
  destruct (HandleParticipantConnectRequest _ _ _ _ _) as [resp | e]; cbn.
  - destruct (proto_Marshal imp _) as [marshalled | e]; cbn.
    + routed_delta. injection Hin as <- <- <-.
      split; [discriminate |]. split; [cbn; auto | exact Hsel].
    + routed_delta. injection Hin as <- <- <-.
      split; [discriminate |]. split; [cbn; auto | exact Hsel].
  - routed_delta. injection Hin as <- <- <-.
    split; [discriminate |]. split; [cbn; auto | exact Hsel].
Qed.

(** X6. Whatever the envelope holds, the connect endpoint calls the router
    only with a relay request in hand, and only for a room that the room
    allocator was asked to place in the same request and accepted. *)
Theorem router_called_after_placement (imp : Imports) (s : RTCv2Service)
    (r : Request) (room : RoomName) (identity : ParticipantIdentity)
    (req : option rpc.RelaySignalv2ConnectRequest) :
  let log := calls (run (handlePost imp s r) initial) in
  In (Call_HandleParticipantConnectRequest room identity req) log ->
  req <> None
  /\ In (Call_SelectRoomNode room "") log
  /\ SelectRoomNode (roomAllocator s) (Context_ r) room "" = None.
Proof.
  cbv zeta. revert room identity req.
  change (routedAfterPlacement s r (calls (run (handlePost imp s r) initial))).
  assert (Hnone : forall log,
             (forall room identity req,
                ~ In (Call_HandleParticipantConnectRequest room identity req) log) ->
             routedAfterPlacement s r log).
  { intros log Hlog room identity req Hin. destruct (Hlog _ _ _ Hin). }
  unfold run, handlePost, bind, requireContentType.
  destruct (negb _); cbn -[readWireMessage forRange].
  { apply Hnone. intros ? ? ? []. }
  unfold readWireMessage, bind, call, orFail. cbn -[forRange].
  destruct (Body r) as [b | e]; cbn -[forRange].
  2: { apply Hnone. cbn. intuition discriminate. }
  destruct (proto_Unmarshal imp b) as [[envelope | fragment |] | e];
    cbn -[forRange]; try (apply Hnone; cbn; intuition discriminate).
  assert (Hstart : routedAfterPlacement s r [Call_ReadAll; Call_Unmarshal b])
    by (apply Hnone; cbn; intuition discriminate).
  pose proof (keeps_forRange _ _ (ClientMessages envelope) _
                (handleClientMessage_keeps_routed imp s r)
                {| w := newResponseWriter;
                   calls := [Call_ReadAll; Call_Unmarshal b] |} Hstart) as Hloop.
  destruct (forRange _ _ _) as [st' [[] |]]; cbn; exact Hloop.
Qed.

(** ** The participant endpoint, all paths *)

(** X7. On the participant endpoint an authorized request whose body
    cannot be read, or does not decode, is answered with status 400 and a
    text that names the step and carries the cause; nothing is relayed. *)
Theorem patch_body_failures (imp : Imports) (s : RTCv2Service) (r : Request)
    (claims : ClaimGrants) (room : RoomName) :
  PatchAuthorized imp r claims room ->
  let out := run (handleParticipantPatch imp s r) initial in
  (forall e, Body r = inr e ->
     failsWith http.StatusBadRequest
       ("could not read request body: " ++ Error e) (w out)
     /\ calls out = [Call_GetGrants; Call_EnsureJoinPermission; Call_ReadAll])
  /\ (forall b e, Body r = inl b -> proto_Unmarshal imp b = inr e ->
        failsWith http.StatusBadRequest
          ("could not unmarshal request: " ++ Error e) (w out)
        /\ calls out = [Call_GetGrants; Call_EnsureJoinPermission; Call_ReadAll;
                        Call_Unmarshal b]).
Proof.
  intros [Hct Hgrants Hvideo Hjoin Hroom Hid Hpid] out. subst out.
  unfold run, handleParticipantPatch, bind.
  rewrite (requireContentType_ok r initial Hct).
  unfold call at 1. cbn -[readWireMessage String.append]. rewrite Hgrants.
  destruct (Video claims) as [v |] eqn:Hv; [| contradiction].
  cbn -[readWireMessage String.append]. rewrite Hjoin. cbn -[readWireMessage String.append].
  apply String.eqb_neq in Hroom, Hid, Hpid.
  rewrite Hroom. cbn -[readWireMessage String.append].
  rewrite Hid. cbn -[readWireMessage String.append].
  rewrite Hpid. cbn -[readWireMessage String.append].
  unfold readWireMessage, bind, call, orFail.
  split.
  - intros e Hb. rewrite Hb. cbn -[String.append]. rewrite <- Error_wrap.
    split; [exact (failsWith_writeErrorJson _ (Some (fmt_Errorf_w _ e ""))) | reflexivity].
  - intros b e Hb Hm. rewrite Hb. cbn -[String.append]. rewrite Hm.
    cbn -[String.append]. rewrite <- Error_wrap.
    split; [exact (failsWith_writeErrorJson _ (Some (fmt_Errorf_w _ e ""))) | reflexivity].
Qed.

(** X8. When the relay call has succeeded but its answer does not encode,
    the participant endpoint answers status 500 with the encoding error:
    the action has been relayed all the same. *)
Theorem patch_encode_failure (imp : Imports) (s : RTCv2Service) (r : Request)
    (claims : ClaimGrants) (room : RoomName) (b : bytes)
    (m : Signalv2WireMessage) (res : rpc.RelaySignalv2ParticipantResponse)
    (e : error) :
  PatchAccepted imp r claims room b m ->
  relayAnswer s r claims room m = inl res ->
  proto_Marshal imp (rpc.WireMessage_ res) = inr e ->
  let out := run (handleParticipantPatch imp s r) initial in
  failsWith http.StatusInternalServerError (Error e) (w out)
  /\ In (Call_RelaySignalv2Participant
           (ParticipantTopic (topicFormatter s) (Context_ r) room (Identity claims))
           (relayedRequest r claims room m))
        (calls out).
Proof.
  intros Hacc Hrelay Henc out. subst out.
  rewrite (patch_reaches_relay imp s r claims room b m Hacc).
  cbv zeta. rewrite Hrelay, Henc. split.
  - exact (failsWith_writeErrorJson _ (Some e)).
  - cbn. auto 10.
Qed.

#[local] Ltac patch_paths imp s r :=
  unfold run, handleParticipantPatch, bind, requireContentType, readWireMessage,
    bind, call, orFail, HandleErrorJson, onWriter, ret, return_, relayError;
  destruct (String.eqb (http.Header_Get (Header r) "Content-type") cContentType)
    eqn:Hct; cbn;
  [ destruct (GetGrants imp (Context_ r)) as [claims |] eqn:Hgrants; cbn;
    [ destruct (Video claims) as [v |] eqn:Hvideo; cbn;
      [ destruct (EnsureJoinPermission imp (Context_ r)) as [room [e |]] eqn:Hjoin; cbn;
        [ | destruct (String.eqb room "") eqn:Hroom; cbn;
            [ | destruct (String.eqb (Identity claims) "") eqn:Hid; cbn;
                [ | destruct (String.eqb (PathValue r "participant_id") "") eqn:Hpid; cbn;
                    [ | destruct (Body r) as [b | e] eqn:Hb; cbn;
                        [ destruct (proto_Unmarshal imp b) as [m | e] eqn:Hm; cbn;
                          [ destruct (RelaySignalv2Participant _ _ _ _)
                              as [res | err] eqn:Hrelay; cbn;
                            [ destruct (proto_Marshal imp (rpc.WireMessage_ res))
                                as [marshalled | e] eqn:Henc; cbn
                            | destruct (errors_As_psrpc err) as [[code msg] |]; cbn;
                              [ destruct (String.eqb code psrpc.NotFound); cbn;
                                [ | destruct (String.eqb code psrpc.InvalidArgument); cbn ]
                              | ] ]
                          | ]
                        | ] ] ] ] ]
      | ]
    | ]
  | ].

(** X9. A PATCH request is relayed only when it has passed the
    content-type gate and every authorization check and its body has
    decoded, and then with the room and identity of the caller's grants,
    the participant id of the path and the decoded message. *)
Theorem relay_only_when_accepted (imp : Imports) (s : RTCv2Service) (r : Request)
    (topic : Topic) (req : rpc.RelaySignalv2ParticipantRequest) :
  In (Call_RelaySignalv2Participant topic req)
     (calls (run (handleParticipantPatch imp s r) initial)) ->
  exists claims room b m,
    PatchAccepted imp r claims room b m
    /\ topic = ParticipantTopic (topicFormatter s) (Context_ r) room (Identity claims)
    /\ req = relayedRequest r claims room m.
Proof.
  patch_paths imp s r; intros Hin; cbn in Hin;
    repeat (destruct Hin as [Hin | Hin]; [try discriminate Hin |]);
    try contradiction.
  all: injection Hin as <- <-.
  all: exists claims, room, b, m.
  all: split; [| split; reflexivity].
  all: constructor; auto.
  all: try (apply String.eqb_eq; exact Hct).
  all: try (rewrite Hvideo; discriminate).
  all: try (apply String.eqb_neq; assumption).
Qed.

(** X10. Whatever the request and whatever the collaborators answer, the
    participant endpoint commits one of the statuses 200, 400, 401, 404
    and 500 and writes exactly one thing: the encoded answer under status
    200, a JSON error carrying the status otherwise. *)
Theorem patch_response_shape (imp : Imports) (s : RTCv2Service) (r : Request) :
  let out := w (run (handleParticipantPatch imp s r) initial) in
  exists statusCode,
    status out = Some statusCode
    /\ In statusCode patchStatuses
    /\ ((statusCode = http.StatusOK
         /\ exists marshalled, body out = [Raw marshalled])
        \/ (statusCode <> http.StatusOK
            /\ exists text,
                 body out = [Json {| code := statusCode; message := text |}])).
Proof.
  cbv zeta. patch_paths imp s r.
  all: eexists; split; [reflexivity |]; split; [cbn; auto 10 |].
  all: first [ left; split; [reflexivity | eexists; reflexivity]
             | right; split; [discriminate | eexists; reflexivity] ].
Qed.

(** ** The remaining paths of the connect endpoint *)


(** X12. [validateInternal] never writes to the response, and it hands back
    a relay request exactly when it hands back no error. With an error the
    room name and the identity are empty; a relay request carries the
    metadata and the participant attributes of the connect request it was
    given. A failure to serialize the grants is reported with status 500,
    whatever status the validator returned. *)
Theorem validateInternal_contract (imp : Imports) (s : RTCv2Service) (r : Request)
    (connectRequest : ConnectRequest) (st : World) :
  exists st' room identity rscr code err,
    validateInternal imp s r connectRequest st
      = (st', Some (room, identity, rscr, code, err))
    /\ w st' = w st
    /\ (err = None <-> rscr <> None)
    /\ (err <> None -> room = "" /\ identity = "")
    /\ (forall q, rscr = Some q ->
          Metadata (rpc.ConnectRequest_ q) = Metadata connectRequest
          /\ ParticipantAttributes (rpc.ConnectRequest_ q)
             = ParticipantAttributes connectRequest)
    /\ (forall res validatorCode e,
          ValidateConnectRequest imp r (limits s) (paramsOf connectRequest)
            (router s) (roomAllocator s) = (res, validatorCode, None) ->
          json_Marshal imp (grants res) = inr e ->
          code = http.StatusInternalServerError /\ err = Some e).
Proof.
  unfold validateInternal, bind, call, ret, paramsOf.
  destruct (ValidateConnectRequest imp r _ _ _ _) as [[res code] [e |]] eqn:Hvalid;
    cbn.
  - do 6 eexists. split; [reflexivity |]. cbn.
    repeat split; intros; try congruence; try discriminate; try contradiction.
  - destruct (json_Marshal imp (grants res)) as [grantsJson | e] eqn:Hjson; cbn.
    + do 6 eexists. split; [reflexivity |]. cbn.
      repeat split; intros; try congruence; try discriminate; try contradiction.
      all: match goal with
           | H : Some _ = Some ?q |- _ => injection H as <-; reflexivity
           end.
    + do 6 eexists. split; [reflexivity |]. cbn.
      repeat split; intros; try congruence; try discriminate; try contradiction.
Qed.

(** ** The further properties on concrete requests *)


Lemma connect_success_witness :
  let request := Faults.connectTo "alpha" in
  let imp := Faults.byRoom
               (Doubles.envelope [Signalv2ClientMessage_ConnectRequest request]) in
  let out := run (handlePost imp Faults.roomService Doubles.post) initial in
  http.Header_Get (Header Doubles.post) "Content-type" = "application/x-protobuf"
  /\ status (w out) = Some 200
  /\ body (w out) = [Raw "RM_alpha"]
  /\ In (Call_HandleParticipantConnectRequest "alpha" "alice"
           (Some {| rpc.GrantsJson := "{alice}"; rpc.CreateRoom := None;
                    rpc.ConnectRequest_ := request |}))
        (calls out).
Proof.
  intros request imp out. split; [reflexivity |].
  destruct (connect_success imp Faults.roomService Doubles.post "body"
              {| ClientMessages := [Signalv2ClientMessage_ConnectRequest request];
                 ServerMessages := [] |}
              request
              {| roomName := "alpha"; grants := Doubles.aliceGrants;
                 createRoomRequest := None |}
              200 "{alice}"
              {| rpc.ConnectResponse_ :=
                   {| Room_Sid := "RM_alpha"; Participant_Sid := "PA_1";
                      ConnectResponse_rest := "" |} |}
              "RM_alpha"
              eq_refl eq_refl eq_refl eq_refl eq_refl eq_refl eq_refl eq_refl eq_refl)
    as (Hcommitted & Hbody & Hcalls).
  split; [| split].
  - subst out. unfold status. rewrite Hcommitted. reflexivity.
  - exact Hbody.
  - subst out. rewrite Hcalls. cbn. auto 10.
Defined.

Lemma post_body_failures_witness :
  let garbled := Faults.imports (inr (errors_New "proto: cannot parse invalid wire-format data"))
                   (inl "") (Faults.alpha, 200, None) in
  http.Header_Get (Header Doubles.post) "Content-type" = "application/x-protobuf"
  /\ failsWith 400 "could not read request body: unexpected EOF"
       (w (run (handlePost garbled Doubles.healthy Faults.unreadable) initial))
  /\ failsWith 400
       "could not unmarshal request: proto: cannot parse invalid wire-format data"
       (w (run (handlePost garbled Doubles.healthy Doubles.post) initial)).
Proof.
  intros garbled. split; [reflexivity |]. split.
  - destruct (post_body_failures garbled Doubles.healthy Faults.unreadable eq_refl)
      as (Hread & _).
    apply (Hread (errors_New "unexpected EOF")). reflexivity.
  - destruct (post_body_failures garbled Doubles.healthy Doubles.post eq_refl)
      as (_ & Hdecode).
    apply (Hdecode "body" (errors_New "proto: cannot parse invalid wire-format data"));
      reflexivity.
Defined.

Lemma doubles_connects (decoded : Signalv2WireMessage) (room : RoomName) :
  Connects (Faults.byRoom decoded) Faults.roomService Doubles.post
    (Faults.connectTo room) ("RM_" ++ room).
Proof.
  apply (connects _ _ _ _
           {| roomName := room; grants := Doubles.aliceGrants;
              createRoomRequest := None |}
           200 "{alice}"
           {| rpc.ConnectResponse_ :=
                {| Room_Sid := "RM_" ++ room; Participant_Sid := "PA_1";
                   ConnectResponse_rest := "" |} |});
    reflexivity.
Qed.

Lemma every_connect_request_is_answered_witness :
  let requests := [Faults.connectTo "alpha"; Faults.connectTo "beta"] in
  let imp := Faults.byRoom
               (Doubles.envelope
                  (map Signalv2ClientMessage_ConnectRequest requests)) in
  let out := w (run (handlePost imp Faults.roomService Doubles.post) initial) in
  http.Header_Get (Header Doubles.post) "Content-type" = "application/x-protobuf"
  /\ status out = Some 200
  /\ body out = [Raw "RM_alpha"; Raw "RM_beta"].
Proof.
  intros requests imp out. split; [reflexivity |].
  apply (every_connect_request_is_answered imp Faults.roomService Doubles.post "body"
           {| ClientMessages := map Signalv2ClientMessage_ConnectRequest requests;
              ServerMessages := [] |}
           requests ["RM_alpha"; "RM_beta"]);
    try reflexivity.
  repeat constructor; apply doubles_connects.
Defined.

Lemma router_called_after_placement_witness :
  let request := Faults.connectTo "alpha" in
  let imp := Faults.byRoom
               (Doubles.envelope
                  [Doubles.ping; Signalv2ClientMessage_ConnectRequest request]) in
  let log := calls (run (handlePost imp Faults.roomService Doubles.post) initial) in
  let req := Some {| rpc.GrantsJson := "{alice}"; rpc.CreateRoom := None;
                     rpc.ConnectRequest_ := request |} in
  In (Call_HandleParticipantConnectRequest "alpha" "alice" req) log
  /\ In (Call_SelectRoomNode "alpha" "") log.
Proof.
  intros request imp log req.
  assert (Hin : In (Call_HandleParticipantConnectRequest "alpha" "alice" req) log)
    by (vm_compute; auto 10).
  split; [exact Hin |].
  apply (router_called_after_placement imp Faults.roomService Doubles.post
           "alpha" "alice" req Hin).
Defined.

Lemma doubles_authorized (decoded : Signalv2WireMessage + error)
    (encoded : bytes + error) (r : Request) :
  Header r = Doubles.protobufHeader ->
  PathValues r = [("participant_id", "p1")] ->
  PatchAuthorized (Faults.imports decoded encoded (Faults.alpha, 200, None)) r
    Doubles.aliceGrants "alpha".
Proof.
  intros Hh Hp. constructor; unfold PathValue; try rewrite Hh; try rewrite Hp;
    try reflexivity; cbn; discriminate.
Qed.

Lemma patch_body_failures_witness :
  let garbled := Faults.imports (inr (errors_New "proto: cannot parse invalid wire-format data"))
                   (inl "") (Faults.alpha, 200, None) in
  PatchAuthorized garbled Doubles.patch Doubles.aliceGrants "alpha"
  /\ failsWith 400 "could not read request body: unexpected EOF"
       (w (run (handleParticipantPatch garbled Doubles.healthy Faults.unreadable) initial))
  /\ failsWith 400
       "could not unmarshal request: proto: cannot parse invalid wire-format data"
       (w (run (handleParticipantPatch garbled Doubles.healthy Doubles.patch) initial)).
Proof.
  intros garbled.
  split; [apply doubles_authorized; reflexivity |]. split.
  - destruct (patch_body_failures garbled Doubles.healthy Faults.unreadable
                Doubles.aliceGrants "alpha"
                (doubles_authorized _ _ Faults.unreadable eq_refl eq_refl))
      as (Hread & _).
    apply (Hread (errors_New "unexpected EOF")). reflexivity.
  - destruct (patch_body_failures garbled Doubles.healthy Doubles.patch
                Doubles.aliceGrants "alpha"
                (doubles_authorized _ _ Doubles.patch eq_refl eq_refl))
      as (_ & Hdecode).
    apply (Hdecode "body" (errors_New "proto: cannot parse invalid wire-format data"));
      reflexivity.
Defined.

Lemma patch_encode_failure_witness :
  let imp := Faults.imports (inl Signalv2WireMessage_nil)
               (inr (errors_New "proto: invalid UTF-8"))
               (Faults.alpha, 200, None) in
  let out := run (handleParticipantPatch imp Doubles.healthy Doubles.patch) initial in
  PatchAccepted imp Doubles.patch Doubles.aliceGrants "alpha" "body"
    Signalv2WireMessage_nil
  /\ failsWith 500 "proto: invalid UTF-8" (w out)
  /\ In (Call_RelaySignalv2Participant "alpha|alice"
           {| rpc.Room := "alpha"; rpc.ParticipantIdentity_ := "alice";
              rpc.ParticipantId := "p1";
              rpc.WireMessage := Signalv2WireMessage_nil |})
        (calls out).
Proof.
  intros imp out.
  assert (Hacc : PatchAccepted imp Doubles.patch Doubles.aliceGrants "alpha" "body"
                   Signalv2WireMessage_nil)
    by (constructor; try reflexivity; cbn; discriminate).
  split; [exact Hacc |].
  apply (patch_encode_failure imp Doubles.healthy Doubles.patch
           Doubles.aliceGrants "alpha" "body" Signalv2WireMessage_nil
           {| rpc.WireMessage_ := Signalv2WireMessage_nil |}
           (errors_New "proto: invalid UTF-8") Hacc eq_refl eq_refl).
Defined.

Lemma relay_only_when_accepted_witness :
  let m := Doubles.envelope [Doubles.ping] in
  let log := calls (run (handleParticipantPatch (Doubles.authorized m)
                           Doubles.healthy Doubles.patch) initial) in
  let req := {| rpc.Room := "alpha"; rpc.ParticipantIdentity_ := "alice";
                rpc.ParticipantId := "p1"; rpc.WireMessage := m |} in
  In (Call_RelaySignalv2Participant "alpha|alice" req) log
  /\ exists claims room b decoded,
       PatchAccepted (Doubles.authorized m) Doubles.patch claims room b decoded
       /\ req = relayedRequest Doubles.patch claims room decoded.
Proof.
  intros m log req.
  assert (Hin : In (Call_RelaySignalv2Participant "alpha|alice" req) log)
    by (vm_compute; auto 10).
  split; [exact Hin |].
  destruct (relay_only_when_accepted (Doubles.authorized m) Doubles.healthy
              Doubles.patch "alpha|alice" req Hin)
    as (claims & room & b & decoded & Hacc & _ & Hreq).
  exists claims, room, b, decoded. split; assumption.
Defined.


(** ** The first client message decides the status *)

Lemma startsWith_writeErrorJson (c : Chunk) (statusCode : Z) (err : option error)
    (rw : ResponseWriter) :
  startsWith c rw -> startsWith c (writeErrorJson statusCode err rw).
Proof.
  unfold startsWith, writeErrorJson, Write, WriteHeader, status.
  intros [[rest Hb] Hs].
  destruct (committed rw) as [[code hdr] |] eqn:Hc; [| discriminate].
  cbn. rewrite Hb. cbn. split; [eauto | exact Hs].
Qed.

Lemma startsWith_Write_Raw (c : Chunk) (marshalled : bytes) (key value : string)
    (rw : ResponseWriter) :
  startsWith c rw -> startsWith c (Write (Raw marshalled) (Header_Add key value rw)).
Proof.
  unfold startsWith, Write, WriteHeader, Header_Add, status.
  intros [[rest Hb] Hs]. cbn.
  destruct (committed rw) as [[code hdr] |] eqn:Hc; [| discriminate].
  cbn. rewrite Hb. cbn. split; [eauto | exact Hs].
Qed.

Lemma handleClientMessage_keeps_start (imp : Imports) (s : RTCv2Service)
    (r : Request) (c : Chunk) (m : Signalv2ClientMessage) :
  keeps (fun st => startsWith c (w st)) (fun st => startsWith c (w st))
    (handleClientMessage imp s r m).
Proof.
  intros st HI.
  unfold handleClientMessage, validateInternal, bind, call, orFail,
    HandleErrorJson, onWriter, ret, return_.
  destruct m as [connectRequest | variant content |]; cbn;
    try (apply startsWith_writeErrorJson; exact HI).
  destruct (ValidateConnectRequest imp r _ _ _ _) as [[res code] [e |]]; cbn;
    try (apply startsWith_writeErrorJson; exact HI).
  destruct (json_Marshal imp (grants res)) as [grantsJson | e]; cbn;
    try (apply startsWith_writeErrorJson; exact HI).
  destruct (SelectRoomNode _ _ _ _) as [e |]; cbn;
    try (apply startsWith_writeErrorJson; exact HI).
  destruct (HandleParticipantConnectRequest _ _ _ _ _) as [resp | e]; cbn;
    try (apply startsWith_writeErrorJson; exact HI).
  destruct (proto_Marshal imp _) as [marshalled | e]; cbn;
    try (apply startsWith_writeErrorJson; exact HI).
  apply startsWith_Write_Raw. exact HI.
Qed.

Lemma startsWith_after_loop (imp : Imports) (s : RTCv2Service) (r : Request)
    (c : Chunk) (rest : list Signalv2ClientMessage) (st : World) :
  startsWith c (w st) ->
  startsWith c
    (w (run (bind (forRange rest (handleClientMessage imp s r))
               (fun _ => onWriter (WriteHeader http.StatusOK))) st)).
Proof.
  intros Hst. unfold run, bind.
  pose proof (keeps_forRange _ _ rest _
                (handleClientMessage_keeps_start imp s r c) st Hst) as Hloop.
  destruct (forRange _ _ _) as [st' [[] |]]; cbn; [| exact Hloop].
  destruct Hloop as [[tail Hb] Hs]. unfold startsWith, WriteHeader, status in *.
  destruct (committed (w st')) as [[code hdr] |]; [| discriminate].
  cbn. split; [eauto | exact Hs].
Qed.

(** X13. When the first client message of an envelope is no connect
    request, the response is status 400 and its body starts with the
    unknown-message-type error that names that message, whatever the
    other messages of the envelope are and whatever is done for them. *)
Theorem unknown_first_message_decides (imp : Imports) (s : RTCv2Service)
    (r : Request) (b : bytes) (envelope : Envelope) (m : Signalv2ClientMessage)
    (rest : list Signalv2ClientMessage) :
  http.Header_Get (Header r) "Content-type" = "application/x-protobuf" ->
  Body r = inl b ->
  proto_Unmarshal imp b = inl (Signalv2WireMessage_Envelope envelope) ->
  ClientMessages envelope = m :: rest ->
  (forall connectRequest, m <> Signalv2ClientMessage_ConnectRequest connectRequest) ->
  let out := w (run (handlePost imp s r) initial) in
  status out = Some http.StatusBadRequest
  /\ exists later,
       body out =
         Json {| code := http.StatusBadRequest;
                 message := "unknown message type, message: " ++ typeName m |}
         :: later.
Proof.
  intros Hct Hb Hm Hmsgs Hother.
  assert (Hstart :
    startsWith
      (Json {| code := http.StatusBadRequest;
               message := "unknown message type, message: " ++ typeName m |})
      (w (run (handlePost imp s r) initial))).
  { unfold run, handlePost. unfold bind at 1 2.
    rewrite (requireContentType_ok r initial Hct).
    rewrite (readWireMessage_ok imp r b _ initial Hb Hm).
    rewrite Hmsgs. cbn [forRange].
    unfold bind at 1 2.
    destruct m as [connectRequest | variant content |];
      [exfalso; apply (Hother connectRequest); reflexivity | |].
    all: cbn -[forRange String.append].
    all: apply (startsWith_after_loop imp s r _ rest).
    all: split; [eexists; reflexivity | reflexivity]. }
  destruct Hstart as [[later Hbody] Hstatus]. split; [exact Hstatus | eauto].
Qed.

(** X14. When the first client message of an envelope is a connect request
    that goes through, the response is status 200 and its body starts
    with the encoded connect response, whatever the other messages of the
    envelope are: an error met for a later message is appended to the
    body and does not change the status. *)
Theorem first_connect_response_decides (imp : Imports) (s : RTCv2Service)
    (r : Request) (b : bytes) (envelope : Envelope)
    (connectRequest : ConnectRequest) (marshalled : bytes)
    (rest : list Signalv2ClientMessage) :
  http.Header_Get (Header r) "Content-type" = "application/x-protobuf" ->
  Body r = inl b ->
  proto_Unmarshal imp b = inl (Signalv2WireMessage_Envelope envelope) ->
  ClientMessages envelope =
    Signalv2ClientMessage_ConnectRequest connectRequest :: rest ->
  Connects imp s r connectRequest marshalled ->
  let out := w (run (handlePost imp s r) initial) in
  status out = Some http.StatusOK
  /\ exists later, body out = Raw marshalled :: later.
Proof.
  intros Hct Hb Hm Hmsgs Hconnects.
  assert (Hstart : startsWith (Raw marshalled) (w (run (handlePost imp s r) initial))).
  { unfold run, handlePost. unfold bind at 1 2.
    rewrite (requireContentType_ok r initial Hct).
    rewrite (readWireMessage_ok imp r b _ initial Hb Hm).
    rewrite Hmsgs. cbn [forRange].
    unfold bind at 1 2.
    destruct (handleClientMessage_connects imp s r connectRequest marshalled
                {| w := w initial;
                   calls := (calls initial ++ [Call_ReadAll]) ++ [Call_Unmarshal b] |}
                Hconnects) as (st1 & Hstep & Hw).
    rewrite Hstep.
    apply (startsWith_after_loop imp s r _ rest).
    rewrite Hw. split; [eexists; reflexivity | reflexivity]. }
  destruct Hstart as [[later Hbody] Hstatus]. split; [exact Hstatus | eauto].
Qed.

Lemma unknown_first_message_decides_witness :
  let msgs := [Doubles.ping;
               Signalv2ClientMessage_ConnectRequest (Faults.connectTo "alpha")] in
  let imp := Faults.byRoom (Doubles.envelope msgs) in
  let out := w (run (handlePost imp Faults.roomService Doubles.post) initial) in
  http.Header_Get (Header Doubles.post) "Content-type" = "application/x-protobuf"
  /\ status out = Some 400
  /\ exists later,
       body out =
         Json {| code := 400;
                 message := "unknown message type, message: *livekit.Signalv2ClientMessage_Ping" |}
         :: later.
Proof.
  intros msgs imp out. split; [reflexivity |].
  apply (unknown_first_message_decides imp Faults.roomService Doubles.post "body"
           {| ClientMessages := msgs; ServerMessages := [] |}
           Doubles.ping
           [Signalv2ClientMessage_ConnectRequest (Faults.connectTo "alpha")]);
    try reflexivity.
  intros connectRequest. discriminate.
Defined.

Lemma first_connect_response_decides_witness :
  let msgs := [Signalv2ClientMessage_ConnectRequest (Faults.connectTo "alpha");
               Doubles.ping] in
  let imp := Faults.byRoom (Doubles.envelope msgs) in
  let out := w (run (handlePost imp Faults.roomService Doubles.post) initial) in
  http.Header_Get (Header Doubles.post) "Content-type" = "application/x-protobuf"
  /\ status out = Some 200
  /\ exists later, body out = Raw "RM_alpha" :: later.
Proof.
  intros msgs imp out. split; [reflexivity |].
  apply (first_connect_response_decides imp Faults.roomService Doubles.post "body"
           {| ClientMessages := msgs; ServerMessages := [] |}
           (Faults.connectTo "alpha") "RM_alpha" [Doubles.ping]);
    try reflexivity.
  apply doubles_connects.
Defined.
